(** * Text-to-Excel data processor: [src/core/data_processor.py]

    A shallow embedding of [process_ai_data] and of the Python string,
    list and dict operations it calls, followed by the properties of the
    parser stated in the specification.

    Conventions of the embedding.
    - A Python [str] is a [string]; each [ascii] stands for the code point
      of the same number, so the texts covered are those whose code points
      are below 256.
    - A Python [int] is a [Z].
    - A Python [dict] is an association list with pairwise distinct keys,
      kept in insertion order, as CPython dicts are.
    - The file system and the spreadsheet writer are the environment of
      the function: they are the fields of [world]. *)

From Stdlib Require Import String Ascii List ZArith Lia Bool Arith.
From Stdlib Require Import Numbers.DecimalString.
Import ListNotations.

Local Open Scope string_scope.
Local Open Scope list_scope.

(* ===================================================================== *)
(** ** Python strings *)
(* ===================================================================== *)

(** [DELIMITER = '%'] (line 19). *)
Definition DELIMITER : ascii := "%"%char.

(** [str(n)] for an [int], as the f-strings of the source render it. *)
Definition str_of_int (n : Z) : string :=
  NilEmpty.string_of_int (Z.to_int n).

(** [c.isspace()] on the code points below 256: TAB, LF, VT, FF, CR,
    FS, GS, RS, US, SPACE, NEL (0x85) and NBSP (0xA0). *)
Definition isspace (c : ascii) : bool :=
  let n := nat_of_ascii c in
  (((9 <=? n) && (n <=? 13)) || ((28 <=? n) && (n <=? 32))
   || (n =? 133) || (n =? 160))%nat.

(** [s.lstrip()]. *)
Fixpoint lstrip (s : string) : string :=
  match s with
  | EmptyString => EmptyString
  | String c s' => if isspace c then lstrip s' else s
  end.

(** [s.rstrip()]. *)
Fixpoint rstrip (s : string) : string :=
  match s with
  | EmptyString => EmptyString
  | String c s' =>
      match rstrip s' with
      | EmptyString => if isspace c then EmptyString else String c EmptyString
      | String _ _ as r => String c r
      end
  end.

(** [s.strip()]. *)
Definition strip (s : string) : string := rstrip (lstrip s).

(** [s.count(DELIMITER)]. *)
Fixpoint count (s : string) : nat :=
  match s with
  | EmptyString => 0
  | String c s' => if Ascii.eqb c DELIMITER then S (count s') else count s'
  end.

(** Prepends a character to the first piece of a split. *)
Definition cons_head (c : ascii) (ps : list string) : list string :=
  match ps with
  | [] => [String c EmptyString]
  | p :: ps' => String c p :: ps'
  end.

(** [s.split(DELIMITER)]: the pieces between delimiters, empty pieces
    included; the empty string gives [['']]. *)
Fixpoint split (s : string) : list string :=
  match s with
  | EmptyString => [EmptyString]
  | String c s' =>
      if Ascii.eqb c DELIMITER then EmptyString :: split s'
      else cons_head c (split s')
  end.

(** [s.split(DELIMITER, maxsplit=k)] for [k >= 0]: at most [k] cuts, the
    rest of the string is the last piece. *)
Fixpoint split_upto (k : nat) (s : string) : list string :=
  match s with
  | EmptyString => [EmptyString]
  | String c s' =>
      match k with
      | O => [s]
      | S k' =>
          if Ascii.eqb c DELIMITER then EmptyString :: split_upto k' s'
          else cons_head c (split_upto k s')
      end
  end.

(** [s.split(DELIMITER, maxsplit=m)] for any [int] [m]: a negative
    [maxsplit] means no limit. *)
Definition split_maxsplit (s : string) (maxsplit : Z) : list string :=
  if (maxsplit <? 0)%Z then split s else split_upto (Z.to_nat maxsplit) s.

(** [DELIMITER.join(ps)]; used in statements only, to say what a piece
    of a limited split holds. *)
Fixpoint join (ps : list string) : string :=
  match ps with
  | [] => EmptyString
  | [p] => p
  | p :: ps' => p ++ String DELIMITER (join ps')
  end.

(** [a == b] on lists of strings. *)
Fixpoint list_eqb (a b : list string) : bool :=
  match a, b with
  | [], [] => true
  | x :: a', y :: b' => String.eqb x y && list_eqb a' b'
  | _, _ => false
  end.

(* ===================================================================== *)
(** ** Python dicts *)
(* ===================================================================== *)

(** A dict from header names to values, in insertion order. *)
Definition row_dict := list (string * string).

(** [d[k] = v]: an existing key keeps its position and takes the new
    value, a new key goes last. *)
Fixpoint dict_set (k v : string) (d : row_dict) : row_dict :=
  match d with
  | [] => [(k, v)]
  | (k', v') :: d' =>
      if String.eqb k k' then (k, v) :: d' else (k', v') :: dict_set k v d'
  end.

(** [d.get(k)]. *)
Fixpoint dict_get (k : string) (d : row_dict) : option string :=
  match d with
  | [] => None
  | (k', v) :: d' => if String.eqb k k' then Some v else dict_get k d'
  end.

(** [list(d.keys())]. *)
Definition dict_keys (d : row_dict) : list string := map fst d.

(** [dict(pairs)]: the pairs are inserted from left to right. *)
Definition dict_of (pairs : list (string * string)) : row_dict :=
  fold_left (fun d kv => dict_set (fst kv) (snd kv) d) pairs [].

(** [zip(a, b)] stops at the shorter list, as [combine] does. *)
Definition zip (a b : list string) : list (string * string) := combine a b.

(** The header names without their repetitions, first occurrences kept. *)
Fixpoint distinct_from (seen hs : list string) : list string :=
  match hs with
  | [] => []
  | h :: hs' =>
      if existsb (String.eqb h) seen then distinct_from seen hs'
      else h :: distinct_from (seen ++ [h]) hs'
  end.

Definition distinct (hs : list string) : list string := distinct_from [] hs.

(* ===================================================================== *)
(** ** Text files *)
(* ===================================================================== *)

Definition LF : ascii := ascii_of_nat 10.
Definition CR : ascii := ascii_of_nat 13.

(** The lines a text-mode file object yields (universal newlines: CR LF
    and a lone CR are read as LF); every line but possibly the last ends
    with LF. *)
Fixpoint readlines (text : string) : list string :=
  match text with
  | EmptyString => []
  | String c rest =>
      if Ascii.eqb c LF then String LF EmptyString :: readlines rest
      else if Ascii.eqb c CR then
        match rest with
        | String c' rest' =>
            if Ascii.eqb c' LF then String LF EmptyString :: readlines rest'
            else String LF EmptyString :: readlines rest
        | EmptyString => [String LF EmptyString]
        end
      else cons_head c (readlines rest)
  end.

(** [f.readline()] on a fresh file object: the first line, or [''] at
    end of file. *)
Definition readline (lines : list string) : string :=
  match lines with
  | [] => EmptyString
  | l :: _ => l
  end.

(** [enumerate(xs, start)]. *)
Fixpoint enumerate (start : Z) (xs : list string) : list (Z * string) :=
  match xs with
  | [] => []
  | x :: xs' => (start, x) :: enumerate (start + 1)%Z xs'
  end.

(* ===================================================================== *)
(** ** The environment *)
(* ===================================================================== *)

(** What a path names. A regular file is given by its text when its bytes
    decode as UTF-8. *)
Inductive fs_entry : Type :=
| Directory
| TextFile (text : string)
| BinaryFile.

(** The exceptions [open] and the text decoder raise. *)
Inductive exn : Type :=
| FileNotFoundError
| IsADirectoryError
| UnicodeDecodeError.

(** [pd.DataFrame(processed_data)]. *)
Record DataFrame : Type := { df_rows : list row_dict }.

(** The environment of one call: the file system, and the outcome of
    lines 76-77, [df.to_excel(path, index=False, engine='openpyxl')] on the
    frame: [None] when the workbook is written, [Some e] when an
    [Exception] whose text is [e] is raised there. *)
Record world : Type := {
  fs : string -> option fs_entry;
  to_excel : DataFrame -> string -> option string
}.

(** [os.path.exists(path)]. *)
Definition path_exists (w : world) (path : string) : bool :=
  match fs w path with Some _ => true | None => false end.

(** [open(path, 'r', encoding='utf-8')] followed by the reads of the
    function: the decoded text, or the exception raised on the way. *)
Definition open_read (w : world) (path : string) : exn + string :=
  match fs w path with
  | None => inl FileNotFoundError
  | Some Directory => inl IsADirectoryError
  | Some BinaryFile => inl UnicodeDecodeError
  | Some (TextFile text) => inr text
  end.

(** What a call gives its caller: the returned pair, or an exception. *)
Inductive outcome : Type :=
| Returned (df : option DataFrame) (warnings : list string)
| Raised (e : exn).

(* ===================================================================== *)
(** ** The warnings *)
(* ===================================================================== *)

Definition msg_not_found (path : string) : string :=
  "Error: Input file '" ++ path ++ "' not found.".

Definition msg_header_mismatch (num_columns : Z) (found : nat) : string :=
  "Error: Mismatch between expected columns (" ++ str_of_int num_columns
  ++ ") and headers in file (" ++ str_of_int (Z.of_nat found) ++ ").".

Definition msg_repeated_header (line_num : Z) : string :=
  "Warning: Skipping repeated header row on line " ++ str_of_int line_num
  ++ ".".

Definition msg_extra_delimiters (line_num : Z) : string :=
  "Warning on line " ++ str_of_int line_num
  ++ ": Extra delimiters found. Extra content was added to the last column.".

Definition msg_column_mismatch
    (line_num num_columns : Z) (found : nat) (row : string) : string :=
  "Error on line " ++ str_of_int line_num
  ++ ": Mismatch in column count. Expected " ++ str_of_int num_columns
  ++ ", found " ++ str_of_int (Z.of_nat found)
  ++ ". Row: '" ++ row ++ "'".

Definition msg_no_data : string := "No valid data found to process.".

Definition msg_saved (path : string) : string :=
  "Data successfully saved to '" ++ path ++ "'.".

Definition msg_save_error (e : string) : string :=
  "Error saving to Excel file: " ++ e.

(* ===================================================================== *)
(** ** [process_ai_data] *)
(* ===================================================================== *)

(** The two lists the function appends to. *)
Record acc : Type := {
  processed_data : list row_dict;
  warnings : list string
}.

Definition acc0 : acc := {| processed_data := []; warnings := [] |}.

Definition warn (a : acc) (msg : string) : acc :=
  {| processed_data := processed_data a; warnings := warnings a ++ [msg] |}.

Definition emit (a : acc) (r : row_dict) : acc :=
  {| processed_data := processed_data a ++ [r]; warnings := warnings a |}.

(** Lines 50-59: the split of a data line under the flag, with the
    warning of line 56. *)
Definition split_line
    (num_columns : Z) (ignore_extra_delimiters : bool)
    (line_num : Z) (stripped_line : string) (a : acc) : list string * acc :=
  if ignore_extra_delimiters then
    (split_maxsplit stripped_line (num_columns - 1),
     if (num_columns - 1 <? Z.of_nat (count stripped_line))%Z
     then warn a (msg_extra_delimiters line_num) else a)
  else (split stripped_line, a).

(** Lines 39-68: the body of the loop over the data lines. The [except]
    of line 65 has no counterpart: [dict(zip(headers, parts))] raises
    nothing on two lists of strings. *)
Definition loop_body
    (headers : list string) (num_columns : Z) (ignore_extra_delimiters : bool)
    (a : acc) (item : Z * string) : acc :=
  let '(line_num, line) := item in
  let stripped_line := strip line in
  if String.eqb stripped_line EmptyString then a
  else if list_eqb (split stripped_line) headers
  then warn a (msg_repeated_header line_num)
  else
    let '(parts, a1) :=
      split_line num_columns ignore_extra_delimiters line_num stripped_line a in
    if (Z.of_nat (length parts) =? num_columns)%Z
    then emit a1 (dict_of (zip headers parts))
    else warn a1 (msg_column_mismatch line_num num_columns
                    (length parts) stripped_line).

(** Line 38: the loop, lines numbered from 2. *)
Definition parse_lines
    (headers : list string) (num_columns : Z) (ignore_extra_delimiters : bool)
    (data_lines : list string) : acc :=
  fold_left (loop_body headers num_columns ignore_extra_delimiters)
            (enumerate 2 data_lines) acc0.

(** Lines 70-82: what is returned once the lines are consumed. *)
Definition finish (w : world) (output_file_path : string) (a : acc) : outcome :=
  match processed_data a with
  | [] => Returned None (warnings a ++ [msg_no_data])
  | _ :: _ =>
      let df := {| df_rows := processed_data a |} in
      match to_excel w df output_file_path with
      | None => Returned (Some df) (warnings a ++ [msg_saved output_file_path])
      | Some e => Returned None (warnings a ++ [msg_save_error e])
      end
  end.

(** Lines 30-82 on the text of the opened file. *)
Definition process_text
    (w : world) (text output_file_path : string)
    (num_columns : Z) (ignore_extra_delimiters : bool) : outcome :=
  let lines := readlines text in
  let header_line := strip (readline lines) in
  let headers := split header_line in
  if negb (Z.of_nat (length headers) =? num_columns)%Z
  then Returned None [msg_header_mismatch num_columns (length headers)]
  else finish w output_file_path
         (parse_lines headers num_columns ignore_extra_delimiters (tl lines)).

(** [process_ai_data(input_file_path, output_file_path, num_columns,
    ignore_extra_delimiters)]. *)
Definition process_ai_data
    (w : world) (input_file_path output_file_path : string)
    (num_columns : Z) (ignore_extra_delimiters : bool) : outcome :=
  if negb (path_exists w input_file_path)
  then Returned None [msg_not_found input_file_path]
  else
    match open_read w input_file_path with
    | inr text =>
        process_text w text output_file_path num_columns
                     ignore_extra_delimiters
    | inl e => Raised e
    end.

(* ===================================================================== *)
(** ** Concrete worlds and statement helpers *)
(* ===================================================================== *)

(** A world with one entry at [path], whose workbook writes succeed. *)
Definition one_entry (path : string) (e : fs_entry) : world :=
  {| fs := fun p => if String.eqb p path then Some e else None;
     to_excel := fun _ _ => None |}.

(** A world with one text file at [path], whose workbook writes succeed. *)
Definition one_file (path text : string) : world :=
  one_entry path (TextFile text).

(** The same world with every workbook write failing with the text [e]. *)
Definition one_file_locked (path text e : string) : world :=
  {| fs := fs (one_file path text); to_excel := fun _ _ => Some e |}.

Definition nl : string := String LF EmptyString.

(** A line of text with its terminator, and the text made of lines. *)
Definition ln (s : string) : string := s ++ nl.

Definition text_of (lines : list string) : string :=
  String.concat "" (map ln lines).

(** The header sequence the function reads from a text (lines 30-31). *)
Definition headers_of (text : string) : list string :=
  split (strip (readline (readlines text))).

(** The lines the loop of line 38 iterates over. *)
Definition data_lines_of (text : string) : list string :=
  tl (readlines text).

(** The value of the last pair whose key is [k]; [None] when there is
    none. Used to follow a key through [dict_of]. *)
Fixpoint lookup_last (k : string) (l : list (string * string)) : option string :=
  match l with
  | [] => None
  | (k', v) :: l' =>
      match lookup_last k l' with
      | Some v' => Some v'
      | None => if String.eqb k k' then Some v else None
      end
  end.


(** The two lists of [b] are those of [a] with items appended. *)
Definition extends (a b : acc) : Prop :=
  (exists rs, processed_data b = processed_data a ++ rs) /\
  (exists ws, warnings b = warnings a ++ ws).

(** A record built by line 63 from [num_columns] parts. *)
Definition record_ok
    (headers : list string) (num_columns : Z) (r : row_dict) : Prop :=
  exists parts,
    Z.of_nat (length parts) = num_columns /\
    r = dict_of (zip headers parts).

(** The data lines the loop does not pass over at line 41. *)
Definition nonblank (data_lines : list string) : list string :=
  filter (fun l => negb (String.eqb (strip l) EmptyString)) data_lines.

(** The parts line 61 counts for a stripped line (lines 50-59 without
    the warning). *)
Definition parts_of
    (num_columns : Z) (ignore_extra_delimiters : bool) (s : string)
    : list string :=
  if ignore_extra_delimiters then split_maxsplit s (num_columns - 1)
  else split s.

(** [list(d.values())]. *)
Definition dict_values (d : row_dict) : list string := map snd d.

(* ===================================================================== *)
(** ** The caller: [MainWindow.process_data_from_gui], [src/gui/main_app.py] *)
(* ===================================================================== *)

(** The table [TRANSLATIONS] of the module [translations], which the
    window imports: for a key, the texts by language code. The table is a
    parameter of the functions below. *)
Definition translations : Type := string -> option (string -> option string).

(** [self.tr(key)] (lines 24-26):
    [TRANSLATIONS.get(key, {}).get(self.current_lang, key)]. *)
Definition tr (T : translations) (current_lang key : string) : string :=
  match T key with
  | None => key
  | Some by_lang =>
      match by_lang current_lang with
      | Some text => text
      | None => key
      end
  end.

(** A modal box the handler opens: [QMessageBox.warning] or
    [QMessageBox.information], with its title and its text. *)
Inductive box : Type :=
| BoxWarning (title text : string)
| BoxInformation (title text : string).

(** ['\n'.join(warnings)]. *)
Definition join_lines (ws : list string) : string := String.concat nl ws.

(** [process_data_from_gui] (lines 126-153) on the texts of the three
    entries and the state of the checkbox: the boxes opened, in order, and
    the exception that leaves the handler, if any. [int_of] is the builtin
    [int] on a [str], [None] standing for [ValueError]. *)
Definition process_data_from_gui
    (T : translations) (current_lang : string)
    (int_of : string -> option Z) (w : world)
    (input_path output_path columns_text : string) (ignore_flag : bool)
    : list box * option exn :=
  let tr := tr T current_lang in
  if String.eqb input_path EmptyString
     || String.eqb output_path EmptyString
     || String.eqb columns_text EmptyString
  then ([BoxWarning (tr "Input Error") (tr "All fields must be filled out.")],
        None)
  else
    match int_of columns_text with
    | None =>
        ([BoxWarning (tr "Input Error")
            (tr "Number of columns must be a valid integer.")], None)
    | Some num_columns =>
        if (num_columns <=? 0)%Z
        then ([BoxWarning (tr "Input Error")
                 (tr "Number of columns must be a positive integer.")], None)
        else
          match process_ai_data w input_path output_path num_columns
                  ignore_flag with
          | Raised e => ([], Some e)
          | Returned df warnings =>
              ((match warnings with
                | [] => []
                | _ :: _ =>
                    [BoxInformation (tr "Processing Report")
                       (join_lines warnings)]
                end)
               ++
               (match df with
                | Some _ =>
                    [BoxInformation (tr "Success")
                       (tr "Data processing complete!")]
                | None => []
                end),
               None)
          end
    end.

(** ** [int] on decimal texts *)

Definition is_digit (c : ascii) : bool :=
  let n := nat_of_ascii c in ((48 <=? n) && (n <=? 57))%nat.

Definition digit_value (c : ascii) : Z := Z.of_nat (nat_of_ascii c - 48).

(** The digits of a literal, single underscores allowed between two
    digits: the value read and the number of digits, or [None]. *)
Fixpoint int_digits
    (value : Z) (ndigits : nat) (after_digit : bool) (s : string)
    : option (Z * nat) :=
  match s with
  | EmptyString => if after_digit then Some (value, ndigits) else None
  | String c s' =>
      if is_digit c
      then int_digits (10 * value + digit_value c)%Z (S ndigits) true s'
      else if Ascii.eqb c "_"%char
      then if after_digit then int_digits value ndigits false s' else None
      else None
  end.

(** CPython's default bound on the digits of a decimal text
    ([sys.int_info.default_max_str_digits]). *)
Definition max_str_digits : nat := 4300.

Definition int_unsigned (s : string) : option Z :=
  match int_digits 0 0 false s with
  | Some (v, d) => if (max_str_digits <? d)%nat then None else Some v
  | None => None
  end.

(** [int(s)] for a [str] in base 10: surrounding whitespace is dropped,
    then an optional sign, then the digits. *)
Definition py_int (s : string) : option Z :=
  match strip s with
  | String c rest =>
      if Ascii.eqb c "-"%char then option_map Z.opp (int_unsigned rest)
      else if Ascii.eqb c "+"%char then int_unsigned rest
      else int_unsigned (String c rest)
  | EmptyString => None
  end.

(** No translation table: every key is its own text. *)
Definition no_translations : translations := fun _ => None.

(* ===================================================================== *)
(** ** Strings: splitting, joining, counting, stripping *)
(* ===================================================================== *)

Lemma list_eqb_eq (a b : list string) : list_eqb a b = true <-> a = b.
Proof.
  revert b; induction a as [|x a IH]; intros [|y b]; simpl; split;
    try discriminate; try reflexivity.
  - intros H. apply andb_true_iff in H as [Hx Hab].
    apply String.eqb_eq in Hx. apply IH in Hab. congruence.
  - intros H. inversion H; subst. apply andb_true_iff. split.
    + apply String.eqb_refl.
    + now apply IH.
Qed.

Lemma list_eqb_neq (a b : list string) : a <> b -> list_eqb a b = false.
Proof.
  intros H. destruct (list_eqb a b) eqn:E; [|reflexivity].
  apply list_eqb_eq in E. contradiction.
Qed.

Lemma split_not_nil (s : string) : split s <> [].
Proof.
  destruct s as [|c s]; simpl; [discriminate|].
  destruct (Ascii.eqb c DELIMITER); [discriminate|].
  destruct (split s); discriminate.
Qed.

Lemma split_upto_not_nil (k : nat) (s : string) : split_upto k s <> [].
Proof.
  destruct s as [|c s]; simpl; [discriminate|].
  destruct k; [discriminate|].
  destruct (Ascii.eqb c DELIMITER); [discriminate|].
  destruct (split_upto (S k) s); discriminate.
Qed.

Lemma length_cons_head (c : ascii) (ps : list string) :
  ps <> [] -> length (cons_head c ps) = length ps.
Proof. destruct ps; [contradiction|reflexivity]. Qed.

Lemma length_split (s : string) : length (split s) = S (count s).
Proof.
  induction s as [|c s IH]; simpl; [reflexivity|].
  destruct (Ascii.eqb c DELIMITER); simpl.
  - now rewrite IH.
  - rewrite length_cons_head by apply split_not_nil. exact IH.
Qed.

Lemma length_split_upto (k : nat) (s : string) :
  length (split_upto k s) = S (Nat.min k (count s)).
Proof.
  revert k; induction s as [|c s IH]; intros k; simpl.
  - now rewrite Nat.min_0_r.
  - destruct k as [|k]; [reflexivity|].
    destruct (Ascii.eqb c DELIMITER); simpl.
    + now rewrite IH.
    + rewrite length_cons_head by apply split_upto_not_nil. apply IH.
Qed.

Lemma join_cons_head (c : ascii) (ps : list string) :
  ps <> [] -> join (cons_head c ps) = String c (join ps).
Proof.
  destruct ps as [|p [|q ps]]; [contradiction| |]; intros _; reflexivity.
Qed.

Lemma join_cons_empty (ps : list string) :
  ps <> [] -> join (EmptyString :: ps) = String DELIMITER (join ps).
Proof. destruct ps; [contradiction|reflexivity]. Qed.

(** Joining the pieces of a split gives the string back. *)
Lemma join_split (s : string) : join (split s) = s.
Proof.
  induction s as [|c s IH]; [reflexivity|]. simpl split.
  destruct (Ascii.eqb c DELIMITER) eqn:E.
  - apply Ascii.eqb_eq in E; subst c.
    rewrite join_cons_empty by apply split_not_nil. now rewrite IH.
  - rewrite join_cons_head by apply split_not_nil. now rewrite IH.
Qed.

(** So does joining the pieces of a limited split. *)
Lemma join_split_upto (k : nat) (s : string) : join (split_upto k s) = s.
Proof.
  revert k; induction s as [|c s IH]; intros k; [reflexivity|].
  simpl split_upto. destruct k as [|k]; [reflexivity|].
  destruct (Ascii.eqb c DELIMITER) eqn:E.
  - apply Ascii.eqb_eq in E; subst c.
    rewrite join_cons_empty by apply split_upto_not_nil. now rewrite IH.
  - rewrite join_cons_head by apply split_upto_not_nil. now rewrite IH.
Qed.

(** A limit the string does not reach changes nothing. *)
Lemma split_upto_all (k : nat) (s : string) :
  count s <= k -> split_upto k s = split s.
Proof.
  revert k; induction s as [|c s IH]; intros k Hk; [reflexivity|].
  simpl in *. destruct (Ascii.eqb c DELIMITER) eqn:E.
  - destruct k as [|k]; [lia|]. rewrite IH by lia. reflexivity.
  - destruct k as [|k].
    + assert (H0 : count s = 0) by lia.
      rewrite <- (IH 0) by lia. clear - H0. destruct s as [|d s]; reflexivity.
    + now rewrite IH.
Qed.

(** A limit the string exceeds keeps the first [k] pieces and leaves the
    others, joined as they were, in the last one. *)
Lemma split_upto_spec (k : nat) (s : string) :
  k <= count s ->
  split_upto k s = firstn k (split s) ++ [join (skipn k (split s))].
Proof.
  revert k; induction s as [|c s IH]; intros k Hk.
  - simpl in Hk. replace k with 0 by lia. reflexivity.
  - destruct k as [|k].
    + rewrite firstn_O, skipn_O, join_split. reflexivity.
    + simpl in *. destruct (Ascii.eqb c DELIMITER).
      * rewrite IH by lia. reflexivity.
      * rewrite IH by lia.
        pose proof (split_not_nil s) as Hn.
        destruct (split s) as [|p ps]; [contradiction|]. reflexivity.
Qed.

Lemma count_append (a b : string) : count (a ++ b) = count a + count b.
Proof.
  induction a as [|c a IH]; simpl; [reflexivity|].
  destruct (Ascii.eqb c DELIMITER); simpl; now rewrite IH.
Qed.

Lemma count_cons_head (c : ascii) (ps : list string) :
  Ascii.eqb c DELIMITER = false ->
  Forall (fun p => count p = 0) ps ->
  Forall (fun p => count p = 0) (cons_head c ps).
Proof.
  intros Hc Hps. destruct ps as [|p ps]; simpl.
  - constructor; [simpl; now rewrite Hc|constructor].
  - inversion Hps; subst. constructor; [simpl; now rewrite Hc|assumption].
Qed.

(** No piece of a split holds a delimiter. *)
Lemma split_pieces (s : string) : Forall (fun p => count p = 0) (split s).
Proof.
  induction s as [|c s IH]; simpl.
  - constructor; [reflexivity|constructor].
  - destruct (Ascii.eqb c DELIMITER) eqn:E.
    + constructor; [reflexivity|assumption].
    + now apply count_cons_head.
Qed.

Lemma count_join (ps : list string) :
  Forall (fun p => count p = 0) ps -> count (join ps) = pred (length ps).
Proof.
  induction 1 as [|p ps Hp Hps IH]; [reflexivity|].
  destruct ps as [|q ps]; [simpl; exact Hp|].
  change (join (p :: q :: ps))
    with (p ++ String DELIMITER (join (q :: ps)))%string.
  rewrite count_append, Hp.
  change (count (String DELIMITER (join (q :: ps))))
    with (S (count (join (q :: ps)))).
  rewrite IH. reflexivity.
Qed.

Lemma Forall_skipn_pieces (k : nat) (ps : list string) :
  Forall (fun p => count p = 0) ps ->
  Forall (fun p => count p = 0) (skipn k ps).
Proof.
  intros H. rewrite Forall_forall in *. intros x Hx. apply H.
  rewrite <- (firstn_skipn k ps). apply in_or_app. now right.
Qed.

(** The last piece of a limited split holds the delimiters that were not
    used as cuts. *)
Lemma count_rest (k : nat) (s : string) :
  count (join (skipn k (split s))) = count s - k.
Proof.
  rewrite count_join by (apply Forall_skipn_pieces, split_pieces).
  rewrite length_skipn, length_split. lia.
Qed.

Lemma isspace_not_delimiter (c : ascii) :
  isspace c = true -> Ascii.eqb c DELIMITER = false.
Proof.
  intros H. destruct (Ascii.eqb c DELIMITER) eqn:E; [|reflexivity].
  apply Ascii.eqb_eq in E; subst c. discriminate H.
Qed.

Lemma count_lstrip (s : string) : count (lstrip s) = count s.
Proof.
  induction s as [|c s IH]; simpl; [reflexivity|].
  destruct (isspace c) eqn:E; [|reflexivity].
  now rewrite (isspace_not_delimiter c E).
Qed.

Lemma count_cons (c : ascii) (s : string) :
  count (String c s) = (if Ascii.eqb c DELIMITER then 1 else 0) + count s.
Proof. simpl. destruct (Ascii.eqb c DELIMITER); reflexivity. Qed.

Lemma count_rstrip (s : string) : count (rstrip s) = count s.
Proof.
  induction s as [|c s IH]; [reflexivity|].
  cbn [rstrip]. destruct (rstrip s) as [|d r] eqn:Er.
  - rewrite count_cons, <- IH. destruct (isspace c) eqn:E.
    + now rewrite (isspace_not_delimiter c E).
    + now rewrite count_cons.
  - rewrite (count_cons c s), <- IH. apply count_cons.
Qed.

(** Stripping removes no delimiter, so a line and its stripped form
    split into the same number of pieces. *)
Lemma count_strip (s : string) : count (strip s) = count s.
Proof. unfold strip. now rewrite count_rstrip, count_lstrip. Qed.

Lemma length_split_strip (s : string) :
  length (split (strip s)) = length (split s).
Proof. now rewrite !length_split, count_strip. Qed.

(* ===================================================================== *)
(** ** Dicts: keys and lookups of [dict(zip(headers, parts))] *)
(* ===================================================================== *)

Lemma existsb_eqb_In (h : string) (l : list string) :
  existsb (String.eqb h) l = true <-> In h l.
Proof.
  rewrite existsb_exists. split.
  - intros [x [Hx E]]. apply String.eqb_eq in E. now subst.
  - intros H. exists h. split; [assumption|apply String.eqb_refl].
Qed.

Lemma existsb_eqb_not_In (h : string) (l : list string) :
  existsb (String.eqb h) l = false <-> ~ In h l.
Proof.
  rewrite <- existsb_eqb_In.
  destruct (existsb (String.eqb h) l); split; intros H;
    congruence || (exfalso; now apply H).
Qed.

Lemma dict_keys_set (k v : string) (d : row_dict) :
  dict_keys (dict_set k v d) =
  if existsb (String.eqb k) (dict_keys d) then dict_keys d
  else dict_keys d ++ [k].
Proof.
  unfold dict_keys.
  induction d as [|[k' v'] d IH]; simpl; [reflexivity|].
  destruct (String.eqb k k') eqn:E; simpl.
  - apply String.eqb_eq in E. now subst.
  - rewrite IH.
    destruct (existsb (String.eqb k) (map fst d)); reflexivity.
Qed.

Lemma dict_keys_fold (l : list (string * string)) (d : row_dict) :
  dict_keys (fold_left (fun d kv => dict_set (fst kv) (snd kv) d) l d) =
  dict_keys d ++ distinct_from (dict_keys d) (map fst l).
Proof.
  revert d; induction l as [|[k v] l IH]; intros d; simpl.
  - now rewrite app_nil_r.
  - rewrite IH, dict_keys_set.
    destruct (existsb (String.eqb k) (dict_keys d)); [reflexivity|].
    now rewrite <- app_assoc.
Qed.

Lemma map_fst_zip (hs ps : list string) :
  length hs <= length ps -> map fst (zip hs ps) = hs.
Proof.
  revert ps; induction hs as [|h hs IH]; intros [|p ps] H; simpl in *;
    try reflexivity; try lia.
  f_equal. apply IH. lia.
Qed.

(** The keys of a row are the header names in order, each one at its
    first occurrence. *)
Lemma dict_keys_of_zip (hs ps : list string) :
  length hs <= length ps -> dict_keys (dict_of (zip hs ps)) = distinct hs.
Proof.
  intros H. unfold dict_of. rewrite dict_keys_fold. simpl.
  now rewrite map_fst_zip.
Qed.

Lemma distinct_from_NoDup (hs seen : list string) :
  NoDup (seen ++ hs) -> distinct_from seen hs = hs.
Proof.
  revert seen; induction hs as [|h hs IH]; intros seen H; [reflexivity|].
  simpl. assert (Hh : ~ In h seen).
  { apply NoDup_remove_2 in H. intros Hin. apply H, in_or_app. now left. }
  apply existsb_eqb_not_In in Hh. rewrite Hh. f_equal. apply IH.
  now rewrite <- app_assoc.
Qed.

Lemma distinct_NoDup (hs : list string) : NoDup hs -> distinct hs = hs.
Proof. intros H. now apply distinct_from_NoDup. Qed.

Lemma length_distinct_from (hs seen : list string) :
  length (distinct_from seen hs) <= length hs.
Proof.
  revert seen; induction hs as [|h hs IH]; intros seen; simpl; [lia|].
  destruct (existsb (String.eqb h) seen); simpl.
  - specialize (IH seen). lia.
  - specialize (IH (seen ++ [h])). lia.
Qed.

Lemma distinct_from_full (hs seen : list string) :
  NoDup seen ->
  length (distinct_from seen hs) = length hs -> NoDup (seen ++ hs).
Proof.
  revert seen; induction hs as [|h hs IH]; intros seen Hs Hl.
  - now rewrite app_nil_r.
  - simpl in Hl. destruct (existsb (String.eqb h) seen) eqn:E.
    + pose proof (length_distinct_from hs seen). lia.
    + apply existsb_eqb_not_In in E. simpl in Hl.
      replace (seen ++ h :: hs) with ((seen ++ [h]) ++ hs)
        by now rewrite <- app_assoc.
      apply IH; [|lia].
      apply NoDup_app; [assumption|repeat constructor; intros []|].
      intros x Hx [Hxh|[]]. now subst.
Qed.

(** A repeated header name costs the row a key. *)
Lemma length_distinct_lt (hs : list string) :
  ~ NoDup hs -> length (distinct hs) < length hs.
Proof.
  intros H. pose proof (length_distinct_from hs []) as Hle.
  unfold distinct.
  destruct (Nat.eq_dec (length (distinct_from [] hs)) (length hs)) as [E|E];
    [|lia].
  exfalso. apply H. apply (distinct_from_full hs []); [constructor|exact E].
Qed.

Lemma dict_get_set (k k' v : string) (d : row_dict) :
  dict_get k (dict_set k' v d) =
  if String.eqb k k' then Some v else dict_get k d.
Proof.
  induction d as [|[k0 v0] d IH]; simpl.
  - reflexivity.
  - destruct (String.eqb k' k0) eqn:E0; simpl.
    + apply String.eqb_eq in E0; subst k0.
      destruct (String.eqb k k'); reflexivity.
    + rewrite IH. destruct (String.eqb k k0) eqn:E1; [|reflexivity].
      apply String.eqb_eq in E1; subst k0.
      destruct (String.eqb k k') eqn:E2; [|reflexivity].
      apply String.eqb_eq in E2; subst k'.
      rewrite String.eqb_refl in E0. discriminate.
Qed.

Lemma dict_get_fold (k : string) (l : list (string * string)) (d : row_dict) :
  dict_get k (fold_left (fun d kv => dict_set (fst kv) (snd kv) d) l d) =
  match lookup_last k l with
  | Some v => Some v
  | None => dict_get k d
  end.
Proof.
  revert d; induction l as [|[k' v] l IH]; intros d; simpl; [reflexivity|].
  rewrite IH, dict_get_set. destruct (lookup_last k l); [reflexivity|].
  destruct (String.eqb k k'); reflexivity.
Qed.

(** In a dict built from pairs, a key holds the value of its last pair. *)
Lemma dict_get_of (k : string) (l : list (string * string)) :
  dict_get k (dict_of l) = lookup_last k l.
Proof.
  unfold dict_of. rewrite dict_get_fold. now destruct (lookup_last k l).
Qed.

Lemma lookup_last_absent (k : string) (l : list (string * string)) :
  ~ In k (map fst l) -> lookup_last k l = None.
Proof.
  induction l as [|[k' v] l IH]; simpl; intros H; [reflexivity|].
  rewrite IH by tauto.
  destruct (String.eqb k k') eqn:E; [|reflexivity].
  apply String.eqb_eq in E. subst. tauto.
Qed.

Lemma lookup_last_nth (hs ps : list string) (i : nat) :
  length hs = length ps ->
  i < length hs ->
  (forall j, i < j < length hs -> nth j hs "" <> nth i hs "") ->
  lookup_last (nth i hs "") (zip hs ps) = Some (nth i ps "").
Proof.
  revert ps i; induction hs as [|h hs IH]; intros [|p ps] i Hl Hi Hj;
    simpl in Hl, Hi; try lia.
  destruct i as [|i].
  - cbn [nth zip combine lookup_last].
    rewrite lookup_last_absent.
    + now rewrite String.eqb_refl.
    + fold (zip hs ps). rewrite (map_fst_zip hs ps) by lia.
      intros Hin. apply (In_nth _ _ "") in Hin as [j [Hjl Hjn]].
      apply (Hj (S j)); [simpl; lia|exact Hjn].
  - cbn [nth zip combine lookup_last]. fold (zip hs ps).
    rewrite IH; [reflexivity|lia|lia|].
    intros j Hjr. apply (Hj (S j)). simpl. lia.
Qed.

Lemma lookup_last_last (hs ps : list string) :
  length hs = length ps -> hs <> [] ->
  lookup_last (last hs "") (zip hs ps) = Some (last ps "").
Proof.
  revert ps; induction hs as [|h hs IH]; intros [|p ps] Hl Hn;
    simpl in Hl; try lia; try contradiction.
  destruct hs as [|h' hs]; destruct ps as [|p' ps]; simpl in Hl; try lia.
  - simpl. now rewrite String.eqb_refl.
  - change (last (h :: h' :: hs) "") with (last (h' :: hs) "").
    change (last (p :: p' :: ps) "") with (last (p' :: ps) "").
    change (zip (h :: h' :: hs) (p :: p' :: ps))
      with ((h, p) :: zip (h' :: hs) (p' :: ps)).
    cbn [lookup_last]. rewrite IH; [reflexivity|simpl; lia|discriminate].
Qed.

Lemma dict_set_fresh (k v : string) (d : row_dict) :
  ~ In k (dict_keys d) -> dict_set k v d = d ++ [(k, v)].
Proof.
  induction d as [|[k' v'] d IH]; simpl; intros H; [reflexivity|].
  destruct (String.eqb k k') eqn:E.
  - apply String.eqb_eq in E. subst. tauto.
  - rewrite IH by tauto. reflexivity.
Qed.

Lemma dict_fold_NoDup (l : list (string * string)) (d : row_dict) :
  NoDup (dict_keys d ++ map fst l) ->
  fold_left (fun d kv => dict_set (fst kv) (snd kv) d) l d = d ++ l.
Proof.
  revert d; induction l as [|[k v] l IH]; intros d H; simpl.
  - now rewrite app_nil_r.
  - simpl in H. rewrite dict_set_fresh.
    + rewrite IH; [now rewrite <- app_assoc|].
      unfold dict_keys. rewrite map_app. simpl. now rewrite <- app_assoc.
    + apply NoDup_remove_2 in H. intros Hin. apply H, in_or_app. now left.
Qed.

(** With pairwise distinct header names the row is the header paired
    with the parts, position by position. *)
Lemma dict_of_zip_NoDup (hs ps : list string) :
  NoDup hs -> length hs <= length ps -> dict_of (zip hs ps) = zip hs ps.
Proof.
  intros Hn Hl. unfold dict_of. rewrite dict_fold_NoDup; [reflexivity|].
  simpl. now rewrite map_fst_zip.
Qed.

(* ===================================================================== *)
(** ** The loop over the data lines *)
(* ===================================================================== *)

Lemma enumerate_app (start : Z) (xs ys : list string) :
  enumerate start (xs ++ ys) =
  enumerate start xs ++ enumerate (start + Z.of_nat (length xs)) ys.
Proof.
  revert start; induction xs as [|x xs IH]; intros start; simpl.
  - now rewrite Z.add_0_r.
  - rewrite IH. do 3 f_equal. lia.
Qed.

Section Loop.

Variable headers : list string.
Variable num_columns : Z.
Variable flag : bool.

(** The line after [pre] is handled by the loop body, on what the
    lines of [pre] left, under the number [length pre + 2]. *)
Lemma parse_lines_snoc (pre : list string) (line : string) :
  parse_lines headers num_columns flag (pre ++ [line]) =
  loop_body headers num_columns flag
    (parse_lines headers num_columns flag pre)
    (Z.of_nat (length pre) + 2, line)%Z.
Proof.
  unfold parse_lines. rewrite enumerate_app, fold_left_app. simpl.
  now rewrite Z.add_comm.
Qed.

Lemma loop_body_blank (a : acc) (i : Z) (line : string) :
  strip line = "" -> loop_body headers num_columns flag a (i, line) = a.
Proof. intros H. unfold loop_body. now rewrite H. Qed.

Lemma loop_body_header (a : acc) (i : Z) (line : string) :
  strip line <> "" ->
  split (strip line) = headers ->
  loop_body headers num_columns flag a (i, line) =
  warn a (msg_repeated_header i).
Proof.
  intros Hb Hh. unfold loop_body.
  apply String.eqb_neq in Hb. rewrite Hb.
  apply list_eqb_eq in Hh. now rewrite Hh.
Qed.

Lemma loop_body_data (a : acc) (i : Z) (line : string) :
  strip line <> "" ->
  split (strip line) <> headers ->
  loop_body headers num_columns flag a (i, line) =
  let '(parts, a1) := split_line num_columns flag i (strip line) a in
  if (Z.of_nat (length parts) =? num_columns)%Z
  then emit a1 (dict_of (zip headers parts))
  else warn a1 (msg_column_mismatch i num_columns (length parts)
                  (strip line)).
Proof.
  intros Hb Hh. unfold loop_body.
  apply String.eqb_neq in Hb. rewrite Hb.
  now rewrite (list_eqb_neq _ _ Hh).
Qed.

Lemma extends_refl (a : acc) : extends a a.
Proof. split; exists []; now rewrite app_nil_r. Qed.

Lemma extends_trans (a b c : acc) : extends a b -> extends b c -> extends a c.
Proof.
  intros [[r1 H1] [w1 H2]] [[r2 H3] [w2 H4]]. split.
  - exists (r1 ++ r2). now rewrite H3, H1, app_assoc.
  - exists (w1 ++ w2). now rewrite H4, H2, app_assoc.
Qed.

Lemma extends_warn (a : acc) (m : string) : extends a (warn a m).
Proof. split; [exists []; now rewrite app_nil_r|now exists [m]]. Qed.

Lemma extends_emit (a : acc) (r : row_dict) : extends a (emit a r).
Proof. split; [now exists [r]|exists []; now rewrite app_nil_r]. Qed.

Lemma loop_body_extends (a : acc) (item : Z * string) :
  extends a (loop_body headers num_columns flag a item).
Proof.
  destruct item as [i line]. unfold loop_body, split_line.
  destruct (String.eqb (strip line) ""); [apply extends_refl|].
  destruct (list_eqb (split (strip line)) headers); [apply extends_warn|].
  destruct flag.
  - destruct (num_columns - 1 <? Z.of_nat (count (strip line)))%Z;
      destruct (Z.of_nat _ =? num_columns)%Z;
      eauto using extends_trans, extends_warn, extends_emit.
  - destruct (Z.of_nat _ =? num_columns)%Z;
      auto using extends_warn, extends_emit.
Qed.

Lemma fold_loop_extends (items : list (Z * string)) (a : acc) :
  extends a (fold_left (loop_body headers num_columns flag) items a).
Proof.
  revert a; induction items as [|it items IH]; intros a; simpl.
  - apply extends_refl.
  - eapply extends_trans; [apply loop_body_extends|apply IH].
Qed.

(** What the lines up to some point produced is still there, in place,
    when the following lines have been consumed. *)
Lemma parse_lines_extends (pre post : list string) :
  extends (parse_lines headers num_columns flag pre)
          (parse_lines headers num_columns flag (pre ++ post)).
Proof.
  unfold parse_lines. rewrite enumerate_app, fold_left_app.
  apply fold_loop_extends.
Qed.

Lemma loop_body_records (a : acc) (item : Z * string) :
  Forall (record_ok headers num_columns) (processed_data a) ->
  Forall (record_ok headers num_columns)
    (processed_data (loop_body headers num_columns flag a item)).
Proof.
  intros Ha. destruct item as [i line]. unfold loop_body, split_line.
  destruct (String.eqb (strip line) ""); [assumption|].
  destruct (list_eqb (split (strip line)) headers); [assumption|].
  destruct flag.
  - destruct (Z.of_nat _ =? num_columns)%Z eqn:E;
      destruct (num_columns - 1 <? Z.of_nat (count (strip line)))%Z;
      simpl; try assumption;
      (apply Forall_app; split; [assumption|]; repeat constructor;
       eexists; split; [apply Z.eqb_eq, E|reflexivity]).
  - destruct (Z.of_nat _ =? num_columns)%Z eqn:E; simpl; try assumption.
    apply Forall_app; split; [assumption|]. repeat constructor.
    eexists; split; [apply Z.eqb_eq, E|reflexivity].
Qed.

Lemma parse_lines_records (data_lines : list string) :
  Forall (record_ok headers num_columns)
    (processed_data (parse_lines headers num_columns flag data_lines)).
Proof.
  unfold parse_lines.
  assert (H : Forall (record_ok headers num_columns) (processed_data acc0)) by constructor.
  revert H. generalize acc0. generalize (enumerate 2 data_lines).
  intros items; induction items as [|it items IH]; intros a Ha; simpl.
  - assumption.
  - apply IH. now apply loop_body_records.
Qed.

End Loop.

(* ===================================================================== *)
(** ** The function on a text file *)
(* ===================================================================== *)

Lemma process_ai_data_text
    (w : world) (inp out : string) (n : Z) (flag : bool) (text : string) :
  fs w inp = Some (TextFile text) ->
  process_ai_data w inp out n flag = process_text w text out n flag.
Proof.
  intros H. unfold process_ai_data, path_exists, open_read. now rewrite H.
Qed.

Lemma process_text_parsed
    (w : world) (text out : string) (n : Z) (flag : bool) :
  Z.of_nat (length (headers_of text)) = n ->
  process_text w text out n flag =
  finish w out (parse_lines (headers_of text) n flag (data_lines_of text)).
Proof.
  intros H. unfold process_text. fold (headers_of text).
  apply Z.eqb_eq in H. rewrite H. reflexivity.
Qed.

(** On a missing path and on a text file the function returns. *)
Lemma process_ai_data_returns
    (w : world) (inp out : string) (n : Z) (flag : bool) :
  fs w inp = None \/ (exists text, fs w inp = Some (TextFile text)) ->
  exists df ws, process_ai_data w inp out n flag = Returned df ws.
Proof.
  intros [H|[text H]].
  - unfold process_ai_data, path_exists. rewrite H. simpl. eauto.
  - rewrite (process_ai_data_text _ _ _ _ _ _ H). unfold process_text.
    destruct (negb _); [eauto|]. unfold finish.
    destruct (processed_data _); [eauto|].
    destruct (to_excel _ _ _); eauto.
Qed.

(* ===================================================================== *)
(** ** Properties of the specification *)
(* ===================================================================== *)

(** C8. A data line that is blank once stripped leaves both lists as
    they were, whatever the flag: no record and no warning for it. *)
Theorem C8_blank_line_silent
    (headers : list string) (num_columns : Z) (flag : bool)
    (pre : list string) (line : string) :
  strip line = "" ->
  parse_lines headers num_columns flag (pre ++ [line]) =
  parse_lines headers num_columns flag pre.
Proof.
  intros H. rewrite parse_lines_snoc. now apply loop_body_blank.
Qed.

Lemma C8_blank_line_silent_witness :
  strip (ln " ") = "" /\
  parse_lines ["a"; "b"] 2 true ([ln "1%2"] ++ [ln " "]) =
  parse_lines ["a"; "b"] 2 true [ln "1%2"].
Proof.
  split; [reflexivity|].
  apply (C8_blank_line_silent ["a"; "b"] 2 true [ln "1%2"] (ln " ")).
  reflexivity.
Defined.

(** C3, as the code has it. For a data line that is not blank once
    stripped and for both values of the flag: when the unlimited split of
    the stripped line equals the header sequence, the line gives no record
    and one repeated-header warning that cites its number. *)
Theorem C3_repeated_header_skipped
    (headers : list string) (num_columns : Z) (flag : bool)
    (pre : list string) (line : string) :
  strip line <> "" ->
  split (strip line) = headers ->
  parse_lines headers num_columns flag (pre ++ [line]) =
  warn (parse_lines headers num_columns flag pre)
       (msg_repeated_header (Z.of_nat (length pre) + 2)).
Proof.
  intros Hb Hh. rewrite parse_lines_snoc. now apply loop_body_header.
Qed.

Lemma C3_repeated_header_skipped_witness :
  strip (ln "a%b") <> "" /\
  split (strip (ln "a%b")) = ["a"; "b"] /\
  parse_lines ["a"; "b"] 2 true ([ln "1%2"] ++ [ln "a%b"]) =
  warn (parse_lines ["a"; "b"] 2 true [ln "1%2"])
       (msg_repeated_header 3).
Proof.
  split; [discriminate|]. split; [reflexivity|].
  apply (C3_repeated_header_skipped ["a"; "b"] 2 true
           [ln "1%2"] (ln "a%b")); [discriminate|reflexivity].
Defined.

(** C3 as stated fails on a blank line under a blank header: the header
    of the text made of two empty lines is [['']], so is the split of the
    second line once stripped, and yet the line is passed over without a
    repeated-header warning. *)
Lemma C3_counterexample :
  headers_of (text_of [""; ""]) = [""] /\
  data_lines_of (text_of [""; ""]) = [nl] /\
  split (strip nl) = headers_of (text_of [""; ""]) /\
  parse_lines [""] 1 false ([] ++ [nl]) = parse_lines [""] 1 false [] /\
  parse_lines [""] 1 false ([] ++ [nl]) <>
    warn (parse_lines [""] 1 false []) (msg_repeated_header 2) /\
  process_ai_data (one_file "in.txt" (text_of [""; ""])) "in.txt" "out.xlsx" 1 false =
    Returned None [msg_no_data].
Proof.
  repeat split; try reflexivity. discriminate.
Qed.

(** The split of a line under the flag when the line has more
    delimiters than the header: the first [num_columns - 1] pieces, then
    one piece with all the rest. *)
Lemma split_maxsplit_extra (s : string) (k : nat) :
  k < count s ->
  split_maxsplit s (Z.of_nat (S k) - 1) =
  firstn k (split s) ++ [join (skipn k (split s))].
Proof.
  intros H. unfold split_maxsplit.
  replace (Z.of_nat (S k) - 1 <? 0)%Z with false
    by (symmetry; apply Z.ltb_ge; lia).
  replace (Z.to_nat (Z.of_nat (S k) - 1)) with k by lia.
  apply split_upto_spec. lia.
Qed.

(** C2. A data line that is neither blank nor a repeated header and has
    more than [num_columns - 1] delimiters: with the flag off it gives the
    column-count warning (expected [num_columns], found the delimiter count
    plus one) and no record; with the flag on it gives the extra-delimiters
    warning and one record, built from the first [num_columns - 1] pieces
    and a last field [rest] that is the remainder of the line verbatim,
    delimiters included, stored under the last header name. The example of
    the specification, header [a%b%c] and line [1%2%3%4], is run on the
    whole function for both values of the flag. *)
Theorem C2_extra_delimiters :
  (forall (headers : list string) (num_columns : Z)
          (pre : list string) (line : string),
      headers <> [] ->
      Z.of_nat (length headers) = num_columns ->
      strip line <> "" ->
      split (strip line) <> headers ->
      (num_columns - 1 < Z.of_nat (count (strip line)))%Z ->
      let s := strip line in
      let i := (Z.of_nat (length pre) + 2)%Z in
      let k := Z.to_nat (num_columns - 1) in
      parse_lines headers num_columns false (pre ++ [line]) =
        warn (parse_lines headers num_columns false pre)
             (msg_column_mismatch i num_columns (S (count s)) s)
      /\ exists rest,
           let parts := firstn k (split s) ++ [rest] in
           parse_lines headers num_columns true (pre ++ [line]) =
             emit (warn (parse_lines headers num_columns true pre)
                        (msg_extra_delimiters i))
                  (dict_of (zip headers parts))
           /\ rest = join (skipn k (split s))
           /\ join parts = s
           /\ count rest = count s - k
           /\ 0 < count rest
           /\ dict_get (last headers "") (dict_of (zip headers parts))
              = Some rest)
  /\ process_ai_data (one_file "in.txt" (text_of ["a%b%c"; "1%2%3%4"]))
       "in.txt" "out.xlsx" 3 false =
     Returned None
       ["Error on line 2: Mismatch in column count. Expected 3, found 4. Row: '1%2%3%4'";
        "No valid data found to process."]
  /\ process_ai_data (one_file "in.txt" (text_of ["a%b%c"; "1%2%3%4"]))
       "in.txt" "out.xlsx" 3 true =
     Returned (Some {| df_rows := [[("a", "1"); ("b", "2"); ("c", "3%4")]] |})
       ["Warning on line 2: Extra delimiters found. Extra content was added to the last column.";
        "Data successfully saved to 'out.xlsx'."].
Proof.
  split; [|split; reflexivity].
  intros headers n pre line Hne Hlen Hb Hh Hcnt s i k.
  assert (Hn : n = Z.of_nat (S k)).
  { destruct headers; [contradiction|]. simpl length in Hlen. lia. }
  assert (Hk : k < count s) by (subst s; lia).
  split.
  - rewrite parse_lines_snoc, loop_body_data by assumption.
    unfold split_line. fold s. rewrite length_split.
    replace (Z.of_nat (S (count s)) =? n)%Z with false
      by (symmetry; apply Z.eqb_neq; lia).
    reflexivity.
  - exists (join (skipn k (split s))). cbv zeta.
    pose proof (split_maxsplit_extra s k Hk) as Hsp. rewrite <- Hn in Hsp.
    repeat split.
    + rewrite parse_lines_snoc, loop_body_data by assumption.
      unfold split_line. fold s. rewrite Hsp.
      replace (n - 1 <? Z.of_nat (count s))%Z with true
        by (symmetry; apply Z.ltb_lt; lia).
      replace (Z.of_nat (length (firstn k (split s)
                 ++ [join (skipn k (split s))])) =? n)%Z with true.
      * reflexivity.
      * symmetry. apply Z.eqb_eq. rewrite length_app, length_firstn.
        rewrite length_split. simpl. lia.
    + rewrite <- Hsp. unfold split_maxsplit.
      destruct (n - 1 <? 0)%Z; [apply join_split|apply join_split_upto].
    + apply count_rest.
    + rewrite count_rest. lia.
    + rewrite dict_get_of, lookup_last_last.
      * now rewrite last_last.
      * rewrite length_app, length_firstn, length_split. simpl. lia.
      * assumption.
Qed.

Lemma C2_extra_delimiters_witness :
  ["a"; "b"; "c"] <> [] /\
  Z.of_nat (length ["a"; "b"; "c"]) = 3%Z /\
  strip (ln "1%2%3%4") <> "" /\
  split (strip (ln "1%2%3%4")) <> ["a"; "b"; "c"] /\
  (3 - 1 < Z.of_nat (count (strip (ln "1%2%3%4"))))%Z /\
  parse_lines ["a"; "b"; "c"] 3 false ([] ++ [ln "1%2%3%4"]) =
    warn (parse_lines ["a"; "b"; "c"] 3 false [])
         (msg_column_mismatch 2 3 4 "1%2%3%4").
Proof.
  repeat (split; [try discriminate; try reflexivity|]).
  apply (proj1 C2_extra_delimiters ["a"; "b"; "c"] 3%Z [] (ln "1%2%3%4"));
    try discriminate; reflexivity.
Defined.

Lemma split_maxsplit_exact (s : string) (n : Z) :
  Z.of_nat (length (split s)) = n -> split_maxsplit s (n - 1) = split s.
Proof.
  rewrite length_split. intros H. unfold split_maxsplit.
  replace (n - 1 <? 0)%Z with false by (symmetry; apply Z.ltb_ge; lia).
  apply split_upto_all. lia.
Qed.

(** C9, as the code has it. When the header holds a repeated name, a
    data line that is not the header row again and whose split has
    [num_columns] parts is accepted without a warning, whatever the flag;
    its record has the header names at their first occurrences as keys,
    fewer than [num_columns], and a name holds the part at its last
    position in the header. *)
Theorem C9_repeated_header_name
    (headers : list string) (num_columns : Z) (flag : bool)
    (pre : list string) (line : string) :
  Z.of_nat (length headers) = num_columns ->
  ~ NoDup headers ->
  Z.of_nat (length (split (strip line))) = num_columns ->
  split (strip line) <> headers ->
  let parts := split (strip line) in
  let r := dict_of (zip headers parts) in
  parse_lines headers num_columns flag (pre ++ [line]) =
    emit (parse_lines headers num_columns flag pre) r
  /\ dict_keys r = distinct headers
  /\ (Z.of_nat (length (dict_keys r)) < num_columns)%Z
  /\ forall i,
       i < length headers ->
       (forall j, i < j < length headers ->
                  nth j headers "" <> nth i headers "") ->
       dict_get (nth i headers "") r = Some (nth i parts "").
Proof.
  intros Hlen Hdup Hparts Hh parts r.
  assert (Hll : length headers = length parts) by (subst parts; lia).
  assert (Hb : strip line <> "").
  { intros E. subst parts. rewrite E in Hll. simpl in Hll.
    apply Hdup. destruct headers as [|h [|h' hs]]; try discriminate.
    repeat constructor. intros []. }
  assert (Hk : dict_keys r = distinct headers).
  { subst r. apply dict_keys_of_zip. lia. }
  repeat split.
  - rewrite parse_lines_snoc, loop_body_data by assumption.
    unfold split_line. destruct flag.
    + rewrite split_maxsplit_exact by assumption.
      replace (num_columns - 1 <? Z.of_nat (count (strip line)))%Z
        with false
        by (symmetry; apply Z.ltb_ge; rewrite length_split in Hparts; lia).
      apply Z.eqb_eq in Hparts. now rewrite Hparts.
    + apply Z.eqb_eq in Hparts. now rewrite Hparts.
  - exact Hk.
  - rewrite Hk. pose proof (length_distinct_lt headers Hdup). lia.
  - intros i Hi Hj. subst r. rewrite dict_get_of.
    now apply lookup_last_nth.
Qed.

Lemma C9_repeated_header_name_witness :
  Z.of_nat (length ["a"; "b"; "a"]) = 3%Z /\
  ~ NoDup ["a"; "b"; "a"] /\
  Z.of_nat (length (split (strip (ln "1%2%3")))) = 3%Z /\
  split (strip (ln "1%2%3")) <> ["a"; "b"; "a"] /\
  parse_lines ["a"; "b"; "a"] 3 false ([] ++ [ln "1%2%3"]) =
    emit (parse_lines ["a"; "b"; "a"] 3 false [])
         [("a", "3"); ("b", "2")].
Proof.
  assert (Hdup : ~ NoDup ["a"; "b"; "a"]).
  { intros H. inversion H as [|x l Hin Hnd]; subst. apply Hin. simpl. tauto. }
  split; [reflexivity|]. split; [exact Hdup|].
  split; [reflexivity|]. split; [discriminate|].
  refine (proj1 (C9_repeated_header_name ["a"; "b"; "a"] 3%Z false []
                   (ln "1%2%3") eq_refl Hdup eq_refl _)).
  discriminate.
Defined.

(** C9 as stated fails when the line is the header row again: under the
    header [a%a] the line [a%a] splits into two parts and is not accepted;
    it gives the repeated-header warning and no record. *)
Lemma C9_counterexample :
  headers_of (text_of ["a%a"; "a%a"]) = ["a"; "a"] /\
  ~ NoDup ["a"; "a"] /\
  length (split (strip (ln "a%a"))) = 2 /\
  parse_lines ["a"; "a"] 2 false ([] ++ [ln "a%a"]) =
    warn (parse_lines ["a"; "a"] 2 false []) (msg_repeated_header 2) /\
  parse_lines ["a"; "a"] 2 false ([] ++ [ln "a%a"]) <>
    emit (parse_lines ["a"; "a"] 2 false [])
         (dict_of (zip ["a"; "a"] (split (strip (ln "a%a"))))) /\
  process_ai_data (one_file "in.txt" (text_of ["a%a"; "a%a"]))
    "in.txt" "out.xlsx" 2 false =
  Returned None [msg_repeated_header 2; msg_no_data].
Proof.
  repeat split; try reflexivity; try discriminate.
  intros H. inversion H as [|x l Hin Hnd]; subst. apply Hin. simpl. tauto.
Qed.

Lemma headers_of_not_nil (text : string) : headers_of text <> [].
Proof. apply split_not_nil. Qed.

Lemma record_ok_NoDup (headers : list string) (n : Z) (r : row_dict) :
  Z.of_nat (length headers) = n ->
  NoDup headers ->
  record_ok headers n r ->
  exists parts,
    length parts = length headers /\ r = zip headers parts /\
    dict_keys r = headers.
Proof.
  intros Hlen Hnd [parts [Hp Hr]]. exists parts.
  assert (Hll : length parts = length headers) by lia.
  rewrite dict_of_zip_NoDup in Hr by (assumption || lia).
  repeat split; [assumption..|].
  subst r. apply map_fst_zip. lia.
Qed.

(** C1, as the code has it. For a text file whose header has exactly
    [num_columns] fields, pairwise distinct, every record the loop appends,
    and so every record of the returned frame, pairs the header sequence
    with [num_columns] strings position by position: its keys are the
    header sequence, in header order, and there are [num_columns] of
    them. *)
Theorem C1_record_keys
    (w : world) (inp out : string) (num_columns : Z) (flag : bool)
    (text : string) :
  fs w inp = Some (TextFile text) ->
  Z.of_nat (length (headers_of text)) = num_columns ->
  NoDup (headers_of text) ->
  let shape (r : row_dict) :=
    (exists parts,
        length parts = length (headers_of text) /\
        r = zip (headers_of text) parts) /\
    dict_keys r = headers_of text /\
    Z.of_nat (length (dict_keys r)) = num_columns in
  (forall r,
      In r (processed_data
              (parse_lines (headers_of text) num_columns flag
                 (data_lines_of text))) ->
      shape r)
  /\ (forall df ws,
         process_ai_data w inp out num_columns flag = Returned (Some df) ws ->
         forall r, In r (df_rows df) -> shape r).
Proof.
  intros Hfs Hlen Hnd shape.
  assert (Hloop : forall r,
             In r (processed_data
                     (parse_lines (headers_of text) num_columns flag
                        (data_lines_of text))) -> shape r).
  { intros r Hin.
    pose proof (parse_lines_records (headers_of text) num_columns flag
                  (data_lines_of text)) as Hall.
    rewrite Forall_forall in Hall. specialize (Hall r Hin).
    destruct (record_ok_NoDup _ _ _ Hlen Hnd Hall) as [parts [Hp [Hr Hk]]].
    unfold shape. repeat split.
    - now exists parts.
    - exact Hk.
    - now rewrite Hk. }
  split; [exact Hloop|].
  intros df ws Hret r Hin. apply Hloop.
  rewrite (process_ai_data_text _ _ _ _ _ _ Hfs) in Hret.
  rewrite process_text_parsed in Hret by assumption.
  unfold finish in Hret.
  destruct (processed_data _) as [|r0 rs] eqn:E; [discriminate|].
  destruct (to_excel _ _ _); [discriminate|].
  inversion Hret; subst. exact Hin.
Qed.

Lemma C1_record_keys_witness :
  fs (one_file "in.txt" (text_of ["a%b"; "1%2"; "3%4"])) "in.txt" =
    Some (TextFile (text_of ["a%b"; "1%2"; "3%4"])) /\
  headers_of (text_of ["a%b"; "1%2"; "3%4"]) = ["a"; "b"] /\
  process_ai_data (one_file "in.txt" (text_of ["a%b"; "1%2"; "3%4"]))
    "in.txt" "out.xlsx" 2 false =
  Returned (Some {| df_rows := [[("a", "1"); ("b", "2")];
                                [("a", "3"); ("b", "4")]] |})
           [msg_saved "out.xlsx"] /\
  dict_keys [("a", "3"); ("b", "4")] = ["a"; "b"].
Proof.
  repeat (split; [reflexivity|]).
  assert (Hnd : NoDup (headers_of (text_of ["a%b"; "1%2"; "3%4"]))).
  { repeat constructor; simpl; intuition discriminate. }
  refine (proj1 (proj2 (proj2 (C1_record_keys
            (one_file "in.txt" (text_of ["a%b"; "1%2"; "3%4"]))
            "in.txt" "out.xlsx" 2%Z false (text_of ["a%b"; "1%2"; "3%4"])
            eq_refl eq_refl Hnd) _ _ eq_refl [("a", "3"); ("b", "4")] _))).
  simpl. tauto.
Defined.

(** C1 as stated fails on a header with a repeated name: the header
    [a%a] has exactly two fields, the line [1%2] is accepted, and the
    record returned has the single key [a]. *)
Lemma C1_counterexample :
  Z.of_nat (length (headers_of (text_of ["a%a"; "1%2"]))) = 2%Z /\
  headers_of (text_of ["a%a"; "1%2"]) = ["a"; "a"] /\
  process_ai_data (one_file "in.txt" (text_of ["a%a"; "1%2"]))
    "in.txt" "out.xlsx" 2 false =
  Returned (Some {| df_rows := [[("a", "2")]] |}) [msg_saved "out.xlsx"] /\
  dict_keys [("a", "2")] <> ["a"; "a"] /\
  length (dict_keys [("a", "2")]) <> 2.
Proof.
  repeat split; try reflexivity; discriminate.
Qed.

(** C4. For a text file whose first line splits into a number of fields
    other than [num_columns], the function returns no data and exactly one
    warning, the header-mismatch one; the result depends neither on the
    lines that follow nor on the writer, which are not looked at. *)
Theorem C4_header_mismatch
    (w : world) (inp out : string) (num_columns : Z) (flag : bool)
    (text : string) :
  fs w inp = Some (TextFile text) ->
  Z.of_nat (length (split (readline (readlines text)))) <> num_columns ->
  process_ai_data w inp out num_columns flag =
  Returned None
    [msg_header_mismatch num_columns
       (length (split (readline (readlines text))))].
Proof.
  intros Hfs Hm. rewrite (process_ai_data_text _ _ _ _ _ _ Hfs).
  unfold process_text. rewrite length_split_strip.
  apply Z.eqb_neq in Hm. now rewrite Hm.
Qed.

Lemma C4_header_mismatch_witness :
  Z.of_nat (length (split (readline (readlines
     (text_of ["a%b"; "1%2%3"]))))) <> 3%Z /\
  process_ai_data (one_file "in.txt" (text_of ["a%b"; "1%2%3"]))
    "in.txt" "out.xlsx" 3 true =
  Returned None
    ["Error: Mismatch between expected columns (3) and headers in file (2)."].
Proof.
  split; [discriminate|].
  apply (C4_header_mismatch (one_file "in.txt" (text_of ["a%b"; "1%2%3"]))
           "in.txt" "out.xlsx" 3%Z true (text_of ["a%b"; "1%2%3"]));
    [reflexivity|discriminate].
Defined.

(** C6. When the header has [num_columns] fields, the loop produced at
    least one record and the workbook write raises, the function returns no
    data and the warnings of the loop followed by the write-failure
    warning. *)
Theorem C6_export_failure
    (w : world) (inp out : string) (num_columns : Z) (flag : bool)
    (text e : string) :
  fs w inp = Some (TextFile text) ->
  Z.of_nat (length (headers_of text)) = num_columns ->
  let a := parse_lines (headers_of text) num_columns flag
             (data_lines_of text) in
  processed_data a <> [] ->
  to_excel w {| df_rows := processed_data a |} out = Some e ->
  process_ai_data w inp out num_columns flag =
  Returned None (warnings a ++ [msg_save_error e]).
Proof.
  intros Hfs Hlen a Hrec Hw.
  rewrite (process_ai_data_text _ _ _ _ _ _ Hfs).
  rewrite process_text_parsed by assumption. fold a. unfold finish.
  destruct (processed_data a) as [|r rs] eqn:E; [contradiction|].
  now rewrite Hw.
Qed.

Lemma C6_export_failure_witness :
  process_ai_data
    (one_file_locked "in.txt" (text_of ["a%b"; "1%2%3"; "1%2"])
       "Permission denied")
    "in.txt" "out.xlsx" 2 false =
  Returned None
    ["Error on line 2: Mismatch in column count. Expected 2, found 3. Row: '1%2%3'";
     "Error saving to Excel file: Permission denied"].
Proof.
  apply (C6_export_failure
           (one_file_locked "in.txt" (text_of ["a%b"; "1%2%3"; "1%2"])
              "Permission denied")
           "in.txt" "out.xlsx" 2%Z false
           (text_of ["a%b"; "1%2%3"; "1%2"]) "Permission denied");
    [reflexivity|reflexivity|discriminate|reflexivity].
Defined.

(** C7. When the header has [num_columns] fields and the loop produced
    no record, the function returns no data and the warnings of the loop
    followed by the no-valid-data warning. *)
Theorem C7_no_valid_data
    (w : world) (inp out : string) (num_columns : Z) (flag : bool)
    (text : string) :
  fs w inp = Some (TextFile text) ->
  Z.of_nat (length (headers_of text)) = num_columns ->
  let a := parse_lines (headers_of text) num_columns flag
             (data_lines_of text) in
  processed_data a = [] ->
  process_ai_data w inp out num_columns flag =
  Returned None (warnings a ++ [msg_no_data]).
Proof.
  intros Hfs Hlen a Hrec.
  rewrite (process_ai_data_text _ _ _ _ _ _ Hfs).
  rewrite process_text_parsed by assumption. fold a. unfold finish.
  now rewrite Hrec.
Qed.

Lemma C7_no_valid_data_witness :
  process_ai_data (one_file "in.txt" (text_of ["a%b"; "a%b"; ""; "1%2%3"]))
    "in.txt" "out.xlsx" 2 false =
  Returned None
    ["Warning: Skipping repeated header row on line 2.";
     "Error on line 4: Mismatch in column count. Expected 2, found 3. Row: '1%2%3'";
     "No valid data found to process."].
Proof.
  apply (C7_no_valid_data
           (one_file "in.txt" (text_of ["a%b"; "a%b"; ""; "1%2%3"]))
           "in.txt" "out.xlsx" 2%Z false
           (text_of ["a%b"; "a%b"; ""; "1%2%3"]));
    reflexivity.
Defined.

(** C10. When the header has [num_columns] fields, the loop produced at
    least one record and the workbook write succeeds, the function returns
    the frame and the warnings of the loop followed by the saved-to message:
    the returned list is never empty and its last item is that message. *)
Theorem C10_success_message
    (w : world) (inp out : string) (num_columns : Z) (flag : bool)
    (text : string) :
  fs w inp = Some (TextFile text) ->
  Z.of_nat (length (headers_of text)) = num_columns ->
  let a := parse_lines (headers_of text) num_columns flag
             (data_lines_of text) in
  processed_data a <> [] ->
  to_excel w {| df_rows := processed_data a |} out = None ->
  exists ws,
    process_ai_data w inp out num_columns flag =
      Returned (Some {| df_rows := processed_data a |}) ws
    /\ ws = warnings a ++ [msg_saved out]
    /\ ws <> []
    /\ last ws "" = msg_saved out.
Proof.
  intros Hfs Hlen a Hrec Hw. exists (warnings a ++ [msg_saved out]).
  repeat split.
  - rewrite (process_ai_data_text _ _ _ _ _ _ Hfs).
    rewrite process_text_parsed by assumption. fold a. unfold finish.
    destruct (processed_data a) as [|r rs] eqn:E; [contradiction|].
    now rewrite Hw.
  - intros E. apply app_eq_nil in E as [_ E]. discriminate.
  - apply last_last.
Qed.

Lemma C10_success_message_witness :
  exists ws,
    process_ai_data (one_file "in.txt" (text_of ["a%b"; "1%2"]))
      "in.txt" "out.xlsx" 2 false =
      Returned (Some {| df_rows := [[("a", "1"); ("b", "2")]] |}) ws
    /\ ws = [] ++ ["Data successfully saved to 'out.xlsx'."]
    /\ ws <> []
    /\ last ws "" = "Data successfully saved to 'out.xlsx'.".
Proof.
  apply (C10_success_message (one_file "in.txt" (text_of ["a%b"; "1%2"]))
           "in.txt" "out.xlsx" 2%Z false (text_of ["a%b"; "1%2"]));
    [reflexivity|reflexivity|discriminate|reflexivity].
Defined.

(** C5. The claim fails on a path that names a directory: the path
    exists, so line 24 lets it through, and [open] at line 28, which no
    [try] encloses, raises [IsADirectoryError] to the caller. A regular
    file whose bytes are not UTF-8 text does the same with
    [UnicodeDecodeError]. *)
Theorem C5_exception_reaches_caller :
  process_ai_data (one_entry "data" Directory) "data" "out.xlsx" 3 false =
    Raised IsADirectoryError
  /\ process_ai_data (one_entry "in.bin" BinaryFile) "in.bin" "out.xlsx" 3 false =
    Raised UnicodeDecodeError.
Proof. split; reflexivity. Qed.

(* ===================================================================== *)
(** ** Further properties of the loop *)
(* ===================================================================== *)

Lemma lstrip_head (s : string) :
  lstrip s = "" \/ exists c t, lstrip s = String c t /\ isspace c = false.
Proof.
  induction s as [|c s IH]; simpl; [now left|].
  destruct (isspace c) eqn:E; [exact IH|]. right. now exists c, s.
Qed.

Lemma rstrip_head (c : ascii) (t : string) :
  isspace c = false -> exists r, rstrip (String c t) = String c r.
Proof.
  intros E. cbn [rstrip]. destruct (rstrip t) as [|d r].
  - rewrite E. now exists "".
  - now exists (String d r).
Qed.

Lemma rstrip_idem (s : string) : rstrip (rstrip s) = rstrip s.
Proof.
  induction s as [|c s IH]; [reflexivity|].
  cbn [rstrip]. destruct (rstrip s) as [|d r] eqn:Er.
  - destruct (isspace c) eqn:E; [reflexivity|]. cbn [rstrip]. now rewrite E.
  - change (rstrip (String c (String d r)))
      with (match rstrip (String d r) with
            | "" => if isspace c then "" else String c ""
            | String _ _ as r' => String c r'
            end).
    now rewrite IH.
Qed.

(** Stripping a stripped line changes nothing. *)
Lemma strip_idem (s : string) : strip (strip s) = strip s.
Proof.
  unfold strip. destruct (lstrip_head s) as [E|[c [t [E Hc]]]]; rewrite E.
  - reflexivity.
  - destruct (rstrip_head c t Hc) as [r Hr]. rewrite Hr.
    cbn [lstrip]. rewrite Hc, <- Hr. apply rstrip_idem.
Qed.

Lemma loop_body_strip
    (headers : list string) (n : Z) (flag : bool)
    (a : acc) (i : Z) (line : string) :
  loop_body headers n flag a (i, strip line) =
  loop_body headers n flag a (i, line).
Proof. unfold loop_body. now rewrite strip_idem. Qed.

(** X1. The loop sees a line only through its stripped form: the
    whitespace around the data lines, their line terminators included,
    changes neither the records nor the warnings. *)
Theorem parse_lines_strip
    (headers : list string) (num_columns : Z) (flag : bool)
    (data_lines : list string) :
  parse_lines headers num_columns flag (map strip data_lines) =
  parse_lines headers num_columns flag data_lines.
Proof.
  unfold parse_lines. generalize acc0, 2%Z.
  induction data_lines as [|l ls IH]; intros a start; [reflexivity|].
  cbn [map enumerate fold_left]. now rewrite loop_body_strip, IH.
Qed.

Lemma join_parts_of (n : Z) (flag : bool) (s : string) :
  join (parts_of n flag s) = s.
Proof.
  unfold parts_of, split_maxsplit. destruct flag; [|apply join_split].
  destruct (n - 1 <? 0)%Z; [apply join_split|apply join_split_upto].
Qed.

Lemma loop_body_origin
    (headers : list string) (n : Z) (flag : bool)
    (a : acc) (i : Z) (line : string) (r : row_dict) :
  In r (processed_data (loop_body headers n flag a (i, line))) ->
  In r (processed_data a) \/
  (strip line <> "" /\ split (strip line) <> headers /\
   Z.of_nat (length (parts_of n flag (strip line))) = n /\
   r = dict_of (zip headers (parts_of n flag (strip line)))).
Proof.
  unfold loop_body, split_line, parts_of.
  destruct (String.eqb (strip line) "") eqn:Eb; [now left|].
  destruct (list_eqb (split (strip line)) headers) eqn:Eh; [now left|].
  apply String.eqb_neq in Eb.
  assert (Hh : split (strip line) <> headers).
  { intros E. apply list_eqb_eq in E. congruence. }
  destruct flag.
  - destruct (Z.of_nat _ =? n)%Z eqn:E;
      destruct (n - 1 <? Z.of_nat (count (strip line)))%Z; simpl;
      try (now left); intros Hin; apply in_app_or in Hin as [Hin|[Hin|[]]];
      try (now left); right; apply Z.eqb_eq in E; subst r; auto.
  - destruct (Z.of_nat _ =? n)%Z eqn:E; simpl; try (now left).
    intros Hin; apply in_app_or in Hin as [Hin|[Hin|[]]]; [now left|].
    right. apply Z.eqb_eq in E. subst r. auto.
Qed.

Lemma fold_loop_origin
    (headers : list string) (n : Z) (flag : bool)
    (ls : list string) (start : Z) (a : acc) (r : row_dict) :
  In r (processed_data
          (fold_left (loop_body headers n flag) (enumerate start ls) a)) ->
  In r (processed_data a) \/
  exists line,
    In line ls /\ strip line <> "" /\ split (strip line) <> headers /\
    Z.of_nat (length (parts_of n flag (strip line))) = n /\
    r = dict_of (zip headers (parts_of n flag (strip line))).
Proof.
  revert start a; induction ls as [|l ls IH]; intros start a Hin.
  - now left.
  - cbn [enumerate fold_left] in Hin. apply IH in Hin as [Hin|[x [Hx H]]].
    + apply loop_body_origin in Hin as [Hin|H]; [now left|].
      right. exists l. split; [now left|exact H].
    + right. exists x. split; [now right|exact H].
Qed.

Lemma parse_lines_origin
    (headers : list string) (n : Z) (flag : bool)
    (data_lines : list string) (r : row_dict) :
  In r (processed_data (parse_lines headers n flag data_lines)) ->
  exists line,
    In line data_lines /\ strip line <> "" /\
    split (strip line) <> headers /\
    Z.of_nat (length (parts_of n flag (strip line))) = n /\
    r = dict_of (zip headers (parts_of n flag (strip line))).
Proof.
  intros Hin. unfold parse_lines in Hin.
  apply fold_loop_origin in Hin as [[]|H]. exact H.
Qed.

(** X2. Every record the loop holds at the end comes from a data line
    of the file that is neither blank nor a repetition of the header row,
    and is [dict(zip(headers, parts))] for the [num_columns] parts of that
    line under the flag: the loop makes up no record, and a blank line or a
    repeated header row never becomes one. *)
Theorem record_origin
    (headers : list string) (num_columns : Z) (flag : bool)
    (data_lines : list string) (r : row_dict) :
  In r (processed_data (parse_lines headers num_columns flag data_lines)) ->
  exists line,
    In line data_lines /\ strip line <> "" /\
    split (strip line) <> headers /\
    Z.of_nat (length (parts_of num_columns flag (strip line))) = num_columns /\
    r = dict_of (zip headers (parts_of num_columns flag (strip line))).
Proof. apply parse_lines_origin. Qed.

Lemma record_origin_witness :
  exists line,
    In line [ln "a%b"; ln ""; ln "1%2"] /\ strip line <> "" /\
    split (strip line) <> ["a"; "b"] /\
    Z.of_nat (length (parts_of 2 true (strip line))) = 2%Z /\
    [("a", "1"); ("b", "2")] =
      dict_of (zip ["a"; "b"] (parts_of 2 true (strip line))).
Proof.
  apply (record_origin ["a"; "b"] 2%Z true [ln "a%b"; ln ""; ln "1%2"]).
  simpl. tauto.
Defined.

Lemma dict_set_In (k v : string) (d : row_dict) (kv : string * string) :
  In kv (dict_set k v d) -> kv = (k, v) \/ In kv d.
Proof.
  induction d as [|[k' v'] d IH]; simpl.
  - intros [H|[]]. now left.
  - destruct (String.eqb k k'); simpl; intros [H|H]; auto.
    apply IH in H as [H|H]; auto.
Qed.

Lemma dict_of_In (l : list (string * string)) (kv : string * string) :
  In kv (dict_of l) -> In kv l.
Proof.
  unfold dict_of.
  assert (H : forall d, In kv (fold_left
                (fun d kv => dict_set (fst kv) (snd kv) d) l d) ->
              In kv d \/ In kv l).
  { induction l as [|[k v] l IH]; intros d Hin; simpl in *; [now left|].
    apply IH in Hin as [Hin|Hin]; [|now right; right].
    apply dict_set_In in Hin as [Hin|Hin]; [right; left; now symmetry|now left]. }
  intros Hin. apply H in Hin as [[]|Hin]. exact Hin.
Qed.

(** X3. No key of a record holds the delimiter, and with the flag off no
    value does either: on a text file, the keys of every record are pieces
    of the header split and the values pieces of a line split. *)
Theorem fields_without_delimiter
    (num_columns : Z) (flag : bool) (text : string)
    (r : row_dict) (k v : string) :
  In r (processed_data
          (parse_lines (headers_of text) num_columns flag
             (data_lines_of text))) ->
  In (k, v) r ->
  count k = 0 /\ (flag = false -> count v = 0).
Proof.
  intros Hr Hkv.
  apply parse_lines_origin in Hr as [line [_ [_ [_ [_ Hr]]]]]. subst r.
  apply dict_of_In in Hkv. unfold zip in Hkv.
  pose proof (in_combine_l _ _ _ _ Hkv) as Hk.
  pose proof (in_combine_r _ _ _ _ Hkv) as Hv.
  split.
  - pose proof (split_pieces (strip (readline (readlines text)))) as Hp.
    rewrite Forall_forall in Hp. now apply Hp.
  - intros ->. pose proof (split_pieces (strip line)) as Hp.
    rewrite Forall_forall in Hp. now apply Hp.
Qed.

Lemma fields_without_delimiter_witness :
  count "b" = 0 /\ (false = false -> count "4" = 0).
Proof.
  apply (fields_without_delimiter 2%Z false (text_of ["a%b"; "1%2"; "3%4"])
           [("a", "3"); ("b", "4")] "b" "4"); simpl; tauto.
Defined.

Lemma map_snd_zip (hs ps : list string) :
  length ps <= length hs -> map snd (zip hs ps) = ps.
Proof.
  revert ps; induction hs as [|h hs IH]; intros [|p ps] H; simpl in *;
    try reflexivity; try lia.
  f_equal. apply IH. lia.
Qed.

(** X4. With pairwise distinct header names, the values of a record,
    joined by the delimiter in order, are the stripped text of the line
    the record was made from, under either value of the flag: an accepted
    line loses no character. *)
Theorem record_join_roundtrip
    (headers : list string) (num_columns : Z) (flag : bool)
    (data_lines : list string) (r : row_dict) :
  NoDup headers ->
  Z.of_nat (length headers) = num_columns ->
  In r (processed_data (parse_lines headers num_columns flag data_lines)) ->
  exists line, In line data_lines /\ join (dict_values r) = strip line.
Proof.
  intros Hnd Hlen Hr.
  apply parse_lines_origin in Hr as [line [Hin [_ [_ [Hp Hr]]]]].
  exists line. split; [exact Hin|].
  rewrite dict_of_zip_NoDup in Hr by (assumption || lia). subst r.
  unfold dict_values. rewrite map_snd_zip by lia. apply join_parts_of.
Qed.

Lemma record_join_roundtrip_witness :
  exists line,
    In line [ln "1%2%3%4"; ln "5%6"] /\
    join (dict_values [("a", "1"); ("b", "2%3%4")]) = strip line.
Proof.
  apply (record_join_roundtrip ["a"; "b"] 2%Z true [ln "1%2%3%4"; ln "5%6"]).
  - repeat constructor; simpl; intuition discriminate.
  - reflexivity.
  - simpl. tauto.
Defined.

Lemma loop_body_counts
    (headers : list string) (n : Z) (flag : bool)
    (a : acc) (i : Z) (line : string) :
  let a' := loop_body headers n flag a (i, line) in
  let recs x := length (processed_data x) in
  let all x := length (processed_data x) + length (warnings x) in
  if String.eqb (strip line) "" then a' = a
  else recs a <= recs a' <= recs a + 1 /\ all a + 1 <= all a' /\
       (flag = false -> all a' = all a + 1).
Proof.
  unfold loop_body, split_line.
  destruct (String.eqb (strip line) ""); [reflexivity|].
  destruct (list_eqb (split (strip line)) headers); simpl.
  - rewrite length_app. simpl. lia.
  - destruct flag.
    + destruct (Z.of_nat _ =? n)%Z;
        destruct (n - 1 <? Z.of_nat (count (strip line)))%Z; simpl;
        rewrite ?length_app; simpl; repeat split; try lia; discriminate.
    + destruct (Z.of_nat _ =? n)%Z; simpl; rewrite length_app; simpl; lia.
Qed.

Lemma fold_loop_counts
    (headers : list string) (n : Z) (flag : bool)
    (ls : list string) (start : Z) (a : acc) :
  let a' := fold_left (loop_body headers n flag) (enumerate start ls) a in
  let m := length (nonblank ls) in
  length (processed_data a') <= length (processed_data a) + m /\
  length (processed_data a) + length (warnings a) + m <=
    length (processed_data a') + length (warnings a') /\
  (flag = false ->
   length (processed_data a') + length (warnings a') =
   length (processed_data a) + length (warnings a) + m).
Proof.
  revert start a; induction ls as [|l ls IH]; intros start a.
  - simpl. lia.
  - cbn [enumerate fold_left].
    specialize (IH (start + 1)%Z (loop_body headers n flag a (start, l))).
    pose proof (loop_body_counts headers n flag a start l) as Hs.
    cbv zeta in IH, Hs |- *. unfold nonblank in *. cbn [filter].
    destruct (String.eqb (strip l) "").
    + rewrite Hs in *. exact IH.
    + cbn [negb length]. destruct IH as [I1 [I2 I3]].
      destruct Hs as [S1 [S2 S3]]. repeat split; try lia.
      intros F. specialize (I3 F). specialize (S3 F). lia.
Qed.

(** X5. No non-blank data line goes unaccounted for: each one gives at
    most one record, and a record or a warning at least. With the flag
    off each gives exactly one of the two, so the records and the warnings
    of the loop together number the non-blank data lines. *)
Theorem line_accounting
    (headers : list string) (num_columns : Z) (flag : bool)
    (data_lines : list string) :
  let a := parse_lines headers num_columns flag data_lines in
  let m := length (nonblank data_lines) in
  length (processed_data a) <= m /\
  m <= length (processed_data a) + length (warnings a) /\
  (flag = false -> length (processed_data a) + length (warnings a) = m).
Proof.
  pose proof (fold_loop_counts headers num_columns flag data_lines 2 acc0)
    as H.
  exact H.
Qed.

Lemma loop_body_records_split
    (headers : list string) (n : Z) (flag : bool)
    (a : acc) (i j : Z) (line : string) :
  processed_data (loop_body headers n flag a (i, line)) =
  processed_data a ++
  processed_data (loop_body headers n flag acc0 (j, line)).
Proof.
  unfold loop_body, split_line.
  destruct (String.eqb (strip line) ""); [now rewrite app_nil_r|].
  destruct (list_eqb (split (strip line)) headers);
    [simpl; now rewrite app_nil_r|].
  destruct flag.
  - destruct (Z.of_nat _ =? n)%Z;
      destruct (n - 1 <? Z.of_nat (count (strip line)))%Z; simpl;
      now rewrite ?app_nil_r.
  - destruct (Z.of_nat _ =? n)%Z; simpl; now rewrite ?app_nil_r.
Qed.

Lemma fold_loop_records_split
    (headers : list string) (n : Z) (flag : bool)
    (ls : list string) (s t : Z) (a : acc) :
  processed_data
    (fold_left (loop_body headers n flag) (enumerate s ls) a) =
  processed_data a ++
  processed_data
    (fold_left (loop_body headers n flag) (enumerate t ls) acc0).
Proof.
  revert s t a; induction ls as [|l ls IH]; intros s t a.
  - simpl. now rewrite app_nil_r.
  - cbn [enumerate fold_left].
    rewrite (IH (s + 1)%Z 0%Z (loop_body headers n flag a (s, l))).
    rewrite (IH (t + 1)%Z 0%Z (loop_body headers n flag acc0 (t, l))).
    rewrite (loop_body_records_split headers n flag a s t l).
    now rewrite app_assoc.
Qed.

(** X6. The records do not depend on where a line stands in the file:
    the records of two runs of lines put end to end are the records of the
    first followed by the records of the second, in line order. *)
Theorem records_concat
    (headers : list string) (num_columns : Z) (flag : bool)
    (lines1 lines2 : list string) :
  processed_data (parse_lines headers num_columns flag (lines1 ++ lines2)) =
  processed_data (parse_lines headers num_columns flag lines1) ++
  processed_data (parse_lines headers num_columns flag lines2).
Proof.
  unfold parse_lines. rewrite enumerate_app, fold_left_app.
  apply fold_loop_records_split.
Qed.

Lemma line_accounting_witness :
  length (processed_data
            (parse_lines ["a"; "b"] 2 false
               [ln "1%2"; ln ""; ln "a%b"; ln "1%2%3"])) +
  length (warnings
            (parse_lines ["a"; "b"] 2 false
               [ln "1%2"; ln ""; ln "a%b"; ln "1%2%3"])) =
  length (nonblank [ln "1%2"; ln ""; ln "a%b"; ln "1%2%3"]).
Proof.
  apply (proj2 (proj2 (line_accounting ["a"; "b"] 2%Z false
                         [ln "1%2"; ln ""; ln "a%b"; ln "1%2%3"]))).
  reflexivity.
Defined.

Lemma loop_body_flag
    (headers : list string) (n : Z) (a : acc) (i : Z) (line : string) :
  (Z.of_nat (count line) <= n - 1)%Z ->
  loop_body headers n true a (i, line) =
  loop_body headers n false a (i, line).
Proof.
  intros H. rewrite <- count_strip in H. unfold loop_body, split_line.
  destruct (String.eqb (strip line) ""); [reflexivity|].
  destruct (list_eqb (split (strip line)) headers); [reflexivity|].
  replace (n - 1 <? Z.of_nat (count (strip line)))%Z with false
    by (symmetry; apply Z.ltb_ge; lia).
  unfold split_maxsplit.
  replace (n - 1 <? 0)%Z with false by (symmetry; apply Z.ltb_ge; lia).
  rewrite split_upto_all by lia. reflexivity.
Qed.

Lemma fold_loop_flag
    (headers : list string) (n : Z) (ls : list string) (start : Z) (a : acc) :
  Forall (fun l => (Z.of_nat (count l) <= n - 1)%Z) ls ->
  fold_left (loop_body headers n true) (enumerate start ls) a =
  fold_left (loop_body headers n false) (enumerate start ls) a.
Proof.
  intros H. revert start a. induction H as [|l ls Hl Hls IH]; intros start a.
  - reflexivity.
  - cbn [enumerate fold_left]. now rewrite loop_body_flag, IH.
Qed.

(** X7. The flag only matters for lines with extra delimiters: on a text
    file none of whose data lines has more than [num_columns - 1]
    delimiters, the function gives the same result (same frame, same
    warnings) with the flag on and off. *)
Theorem flag_irrelevant_without_extra
    (w : world) (inp out : string) (num_columns : Z) (text : string) :
  fs w inp = Some (TextFile text) ->
  Forall (fun l => (Z.of_nat (count l) <= num_columns - 1)%Z)
         (data_lines_of text) ->
  process_ai_data w inp out num_columns true =
  process_ai_data w inp out num_columns false.
Proof.
  intros Hfs Hall. rewrite !(process_ai_data_text _ _ _ _ _ _ Hfs).
  unfold process_text. destruct (negb _); [reflexivity|].
  unfold parse_lines. fold (data_lines_of text).
  now rewrite fold_loop_flag.
Qed.

Lemma flag_irrelevant_without_extra_witness :
  process_ai_data (one_file "in.txt" (text_of ["a%b"; "1%2"; "3"; ""]))
    "in.txt" "out.xlsx" 2 true =
  process_ai_data (one_file "in.txt" (text_of ["a%b"; "1%2"; "3"; ""]))
    "in.txt" "out.xlsx" 2 false.
Proof.
  apply (flag_irrelevant_without_extra
           (one_file "in.txt" (text_of ["a%b"; "1%2"; "3"; ""]))
           "in.txt" "out.xlsx" 2%Z (text_of ["a%b"; "1%2"; "3"; ""]));
    [reflexivity|].
  repeat constructor; simpl; lia.
Defined.

(** X8. The flag does not rescue a short line: when the header has
    [num_columns] fields, a non-blank data line with fewer than
    [num_columns - 1] delimiters gives no record and the column-count
    warning with its number, the expected count and the count found, under
    either value of the flag. *)
Theorem too_few_fields
    (headers : list string) (num_columns : Z) (flag : bool)
    (pre : list string) (line : string) :
  Z.of_nat (length headers) = num_columns ->
  strip line <> "" ->
  (Z.of_nat (count (strip line)) < num_columns - 1)%Z ->
  parse_lines headers num_columns flag (pre ++ [line]) =
  warn (parse_lines headers num_columns flag pre)
       (msg_column_mismatch (Z.of_nat (length pre) + 2) num_columns
          (S (count (strip line))) (strip line)).
Proof.
  intros Hlen Hb Hc.
  assert (Hh : split (strip line) <> headers).
  { intros E. rewrite <- E, length_split in Hlen. lia. }
  rewrite parse_lines_snoc. destruct flag.
  - rewrite loop_body_flag by (rewrite <- count_strip; lia).
    rewrite loop_body_data by assumption. unfold split_line.
    rewrite length_split.
    replace (Z.of_nat (S (count (strip line))) =? num_columns)%Z with false
      by (symmetry; apply Z.eqb_neq; lia).
    reflexivity.
  - rewrite loop_body_data by assumption. unfold split_line.
    rewrite length_split.
    replace (Z.of_nat (S (count (strip line))) =? num_columns)%Z with false
      by (symmetry; apply Z.eqb_neq; lia).
    reflexivity.
Qed.

Lemma too_few_fields_witness :
  parse_lines ["a"; "b"; "c"] 3 true ([ln "1%2%3"] ++ [ln " 4%5 "]) =
  warn (parse_lines ["a"; "b"; "c"] 3 true [ln "1%2%3"])
       (msg_column_mismatch 3 3 2 "4%5").
Proof.
  apply (too_few_fields ["a"; "b"; "c"] 3%Z true [ln "1%2%3"] (ln " 4%5 "));
    [reflexivity|discriminate|reflexivity].
Defined.

(* ===================================================================== *)
(** ** Further properties of the function *)
(* ===================================================================== *)

Lemma process_ai_data_cases
    (w : world) (inp out : string) (n : Z) (flag : bool)
    (df : option DataFrame) (ws : list string) :
  process_ai_data w inp out n flag = Returned df ws ->
  (fs w inp = None /\ df = None /\ ws = [msg_not_found inp]) \/
  exists text,
    fs w inp = Some (TextFile text) /\
    ((Z.of_nat (length (headers_of text)) <> n /\ df = None /\
      ws = [msg_header_mismatch n (length (headers_of text))]) \/
     (Z.of_nat (length (headers_of text)) = n /\
      let a := parse_lines (headers_of text) n flag (data_lines_of text) in
      (processed_data a = [] /\ df = None /\
       ws = warnings a ++ [msg_no_data]) \/
      (processed_data a <> [] /\
       exists e, to_excel w {| df_rows := processed_data a |} out = Some e /\
                 df = None /\ ws = warnings a ++ [msg_save_error e]) \/
      (processed_data a <> [] /\
       to_excel w {| df_rows := processed_data a |} out = None /\
       df = Some {| df_rows := processed_data a |} /\
       ws = warnings a ++ [msg_saved out]))).
Proof.
  unfold process_ai_data, path_exists, open_read.
  destruct (fs w inp) as [[|text|]|] eqn:Hfs; simpl; try discriminate.
  - intros H. right. exists text. split; [reflexivity|].
    unfold process_text in H. fold (headers_of text) in H.
    fold (data_lines_of text) in H.
    destruct (Z.of_nat (length (headers_of text)) =? n)%Z eqn:E; simpl in H.
    + apply Z.eqb_eq in E. right. split; [exact E|]. cbv zeta.
      unfold finish in H.
      destruct (processed_data _) as [|r rs] eqn:Ep.
      * left. inversion H. auto.
      * right. destruct (to_excel _ _ _) as [e|] eqn:Ew.
        -- left. split; [discriminate|]. exists e. inversion H. auto.
        -- right. split; [discriminate|]. inversion H. auto.
    + apply Z.eqb_neq in E. left. inversion H. auto.
  - intros H. left. inversion H. auto.
Qed.

(** X9. Whenever the function returns, the list of warnings has at least
    one message: every return of the source comes after an [append]. A
    caller that shows the report only for a non-empty list always shows
    it. *)
Theorem warnings_never_empty
    (w : world) (inp out : string) (num_columns : Z) (flag : bool)
    (df : option DataFrame) (ws : list string) :
  process_ai_data w inp out num_columns flag = Returned df ws -> ws <> [].
Proof.
  intros H. apply process_ai_data_cases in H.
  destruct H as [[_ [_ ->]]|[text [_ [[_ [_ ->]]|[_ H]]]]]; try discriminate.
  cbv zeta in H.
  destruct H as [[_ [_ ->]]|[[_ [e [_ [_ ->]]]]|[_ [_ [_ ->]]]]];
    intros E; apply app_eq_nil in E as [_ E]; discriminate.
Qed.

Lemma warnings_never_empty_witness :
  [msg_not_found "gone.txt"] <> [].
Proof.
  apply (warnings_never_empty (one_file "in.txt" "") "gone.txt" "out.xlsx"
           3%Z false None [msg_not_found "gone.txt"]).
  reflexivity.
Defined.

(** X10. A frame is returned only when everything went through: the
    input is a text file whose header has [num_columns] fields, the frame
    holds the records of the loop and at least one, the workbook was
    written, and the warnings are those of the loop followed by the
    saved-to message. The function never returns an empty frame. *)
Theorem frame_returned_only_on_success
    (w : world) (inp out : string) (num_columns : Z) (flag : bool)
    (df : DataFrame) (ws : list string) :
  process_ai_data w inp out num_columns flag = Returned (Some df) ws ->
  exists text,
    fs w inp = Some (TextFile text) /\
    Z.of_nat (length (headers_of text)) = num_columns /\
    let a := parse_lines (headers_of text) num_columns flag
               (data_lines_of text) in
    df_rows df = processed_data a /\
    df_rows df <> [] /\
    to_excel w df out = None /\
    ws = warnings a ++ [msg_saved out].
Proof.
  intros H. apply process_ai_data_cases in H.
  destruct H as [[_ [H _]]|[text [Hfs [[_ [H _]]|[Hlen H]]]]];
    try discriminate.
  exists text. split; [exact Hfs|]. split; [exact Hlen|]. cbv zeta in *.
  destruct H as [[_ [H _]]|[[_ [e [_ [H _]]]]|[Hp [Hw [Hdf Hws]]]]];
    try discriminate.
  inversion Hdf; subst df. simpl. auto.
Qed.

Lemma frame_returned_only_on_success_witness :
  exists text,
    fs (one_file "in.txt" (text_of ["a%b"; "1%2"])) "in.txt" =
      Some (TextFile text) /\
    Z.of_nat (length (headers_of text)) = 2%Z /\
    let a := parse_lines (headers_of text) 2 false (data_lines_of text) in
    df_rows {| df_rows := [[("a", "1"); ("b", "2")]] |} = processed_data a /\
    df_rows {| df_rows := [[("a", "1"); ("b", "2")]] |} <> [] /\
    to_excel (one_file "in.txt" (text_of ["a%b"; "1%2"]))
      {| df_rows := [[("a", "1"); ("b", "2")]] |} "out.xlsx" = None /\
    [msg_saved "out.xlsx"] = warnings a ++ [msg_saved "out.xlsx"].
Proof.
  apply (frame_returned_only_on_success
           (one_file "in.txt" (text_of ["a%b"; "1%2"]))
           "in.txt" "out.xlsx" 2%Z false).
  reflexivity.
Defined.



(** X12. The function does not check that [num_columns] is positive,
    and does not need to: a header has at least one field, so on a text
    file a count of zero or less always ends in the header-mismatch
    return, before any data line is read. *)
Theorem nonpositive_columns_rejected
    (w : world) (inp out : string) (num_columns : Z) (flag : bool)
    (text : string) :
  fs w inp = Some (TextFile text) ->
  (num_columns <= 0)%Z ->
  process_ai_data w inp out num_columns flag =
  Returned None
    [msg_header_mismatch num_columns (length (headers_of text))].
Proof.
  intros Hfs Hn. rewrite (process_ai_data_text _ _ _ _ _ _ Hfs).
  unfold process_text. fold (headers_of text).
  replace (Z.of_nat (length (headers_of text)) =? num_columns)%Z with false.
  - reflexivity.
  - symmetry. apply Z.eqb_neq. unfold headers_of. rewrite length_split. lia.
Qed.

Lemma nonpositive_columns_rejected_witness :
  process_ai_data (one_file "in.txt" (text_of ["a%b"; "1%2"]))
    "in.txt" "out.xlsx" 0 true =
  Returned None
    ["Error: Mismatch between expected columns (0) and headers in file (2)."].
Proof.
  apply (nonpositive_columns_rejected
           (one_file "in.txt" (text_of ["a%b"; "1%2"]))
           "in.txt" "out.xlsx" 0%Z true (text_of ["a%b"; "1%2"]));
    [reflexivity|lia].
Defined.

(** X13. An empty file has the one-field header [['']]: with
    [num_columns = 1] the function goes through the loop and returns the
    no-valid-data warning, with any other count it returns the
    header-mismatch warning that reports one field found. *)
Theorem empty_file
    (w : world) (inp out : string) (num_columns : Z) (flag : bool) :
  fs w inp = Some (TextFile "") ->
  process_ai_data w inp out num_columns flag =
  Returned None
    [if (num_columns =? 1)%Z then msg_no_data
     else msg_header_mismatch num_columns 1].
Proof.
  intros Hfs. rewrite (process_ai_data_text _ _ _ _ _ _ Hfs).
  unfold process_text.
  change (Z.of_nat (length (split (strip (readline (readlines ""))))))
    with 1%Z.
  rewrite Z.eqb_sym. destruct (num_columns =? 1)%Z; reflexivity.
Qed.

Lemma empty_file_witness :
  process_ai_data (one_file "in.txt" "") "in.txt" "out.xlsx" 1 false =
  Returned None ["No valid data found to process."].
Proof.
  apply (empty_file (one_file "in.txt" "") "in.txt" "out.xlsx" 1%Z false).
  reflexivity.
Defined.

(* ===================================================================== *)
(** ** Properties of the caller, [process_data_from_gui] *)
(* ===================================================================== *)


Lemma fields_filled (ip op ct : string) :
  ip <> "" -> op <> "" -> ct <> "" ->
  String.eqb ip "" || String.eqb op "" || String.eqb ct "" = false.
Proof.
  intros H1 H2 H3. apply String.eqb_neq in H1, H2, H3.
  now rewrite H1, H2, H3.
Qed.

(** X14. The handler checks its entries before it calls the parser: when
    an entry is empty, or the column text is not an integer, or the integer
    is zero or less, it opens one warning box titled by the "Input Error"
    key and does nothing else, whatever the file system holds. *)
Theorem gui_rejects_invalid_input
    (T : translations) (lang : string) (int_of : string -> option Z)
    (ip op ct : string) (flag : bool) :
  ip = "" \/ op = "" \/ ct = "" \/ int_of ct = None \/
  (exists n, int_of ct = Some n /\ (n <= 0)%Z) ->
  exists text,
    forall w,
      process_data_from_gui T lang int_of w ip op ct flag =
      ([BoxWarning (tr T lang "Input Error") text], None).
Proof.
  intros H. unfold process_data_from_gui.
  destruct (String.eqb ip "" || String.eqb op "" || String.eqb ct "") eqn:E;
    [eexists; reflexivity|].
  apply orb_false_iff in E as [E E3]. apply orb_false_iff in E as [E1 E2].
  apply String.eqb_neq in E1, E2, E3.
  destruct H as [H|[H|[H|[H|[n [H Hn]]]]]]; try contradiction.
  - rewrite H. eexists; reflexivity.
  - rewrite H. apply Z.leb_le in Hn. rewrite Hn. eexists; reflexivity.
Qed.

Lemma gui_rejects_invalid_input_witness :
  exists text,
    forall w,
      process_data_from_gui no_translations "en" py_int w
        "in.txt" "out.xlsx" "-3" true =
      ([BoxWarning (tr no_translations "en" "Input Error") text], None).
Proof.
  apply (gui_rejects_invalid_input no_translations "en" py_int
           "in.txt" "out.xlsx" "-3" true).
  do 4 right. exists (-3)%Z. split; [reflexivity|lia].
Defined.

(** X15. With the three entries filled and a positive integer in the
    column entry, a returning call always shows the report, the warnings
    joined by newlines, because the list is never empty; the success box
    follows exactly when a frame came back. *)
Theorem gui_report_always_shown
    (T : translations) (lang : string) (int_of : string -> option Z)
    (w : world) (ip op ct : string) (flag : bool)
    (n : Z) (df : option DataFrame) (ws : list string) :
  ip <> "" -> op <> "" -> ct <> "" ->
  int_of ct = Some n -> (0 < n)%Z ->
  process_ai_data w ip op n flag = Returned df ws ->
  process_data_from_gui T lang int_of w ip op ct flag =
  (BoxInformation (tr T lang "Processing Report") (join_lines ws)
   :: match df with
      | Some _ =>
          [BoxInformation (tr T lang "Success")
             (tr T lang "Data processing complete!")]
      | None => []
      end,
   None).
Proof.
  intros H1 H2 H3 Hi Hn Hret. unfold process_data_from_gui.
  rewrite fields_filled by assumption. rewrite Hi.
  replace (n <=? 0)%Z with false by (symmetry; apply Z.leb_gt; lia).
  rewrite Hret.
  assert (Hne : ws <> []).
  { apply process_ai_data_cases in Hret.
    destruct Hret as [[_ [_ ->]]|[text [_ [[_ [_ ->]]|[_ H]]]]];
      try discriminate.
    cbv zeta in H.
    destruct H as [[_ [_ ->]]|[[_ [e [_ [_ ->]]]]|[_ [_ [_ ->]]]]];
      intros E; apply app_eq_nil in E as [_ E]; discriminate. }
  destruct ws as [|m ms]; [contradiction|]. reflexivity.
Qed.

Lemma gui_report_always_shown_witness :
  process_data_from_gui no_translations "en" py_int
    (one_file "in.txt" (text_of ["a%b"; "1%2"]))
    "in.txt" "out.xlsx" " 2 " false =
  ([BoxInformation "Processing Report"
      "Data successfully saved to 'out.xlsx'.";
    BoxInformation "Success" "Data processing complete!"],
   None).
Proof.
  apply (gui_report_always_shown no_translations "en" py_int
           (one_file "in.txt" (text_of ["a%b"; "1%2"]))
           "in.txt" "out.xlsx" " 2 " false 2%Z
           (Some {| df_rows := [[("a", "1"); ("b", "2")]] |})
           [msg_saved "out.xlsx"]);
    try discriminate; try reflexivity.
Defined.

(** X16. The handler opens two boxes only after a written workbook: the
    entries were filled, the column text was a positive integer, the parser
    returned a frame with at least one row, the write succeeded, and the
    second box is the success box. *)
Theorem gui_success_means_written
    (T : translations) (lang : string) (int_of : string -> option Z)
    (w : world) (ip op ct : string) (flag : bool) (b1 b2 : box) :
  fst (process_data_from_gui T lang int_of w ip op ct flag) = [b1; b2] ->
  exists n df ws,
    int_of ct = Some n /\ (0 < n)%Z /\
    process_ai_data w ip op n flag = Returned (Some df) ws /\
    df_rows df <> [] /\
    to_excel w df op = None /\
    b1 = BoxInformation (tr T lang "Processing Report") (join_lines ws) /\
    b2 = BoxInformation (tr T lang "Success")
           (tr T lang "Data processing complete!").
Proof.
  unfold process_data_from_gui.
  destruct (String.eqb ip "" || String.eqb op "" || String.eqb ct "");
    [discriminate|].
  destruct (int_of ct) as [n|]; [|discriminate].
  destruct (n <=? 0)%Z eqn:En; [discriminate|]. apply Z.leb_gt in En.
  destruct (process_ai_data w ip op n flag) as [df ws|e] eqn:Hret;
    [|discriminate].
  destruct ws as [|m ms]; destruct df as [df|]; simpl; try discriminate.
  intros H. inversion H; subst. exists n, df, (m :: ms).
  pose proof Hret as Hc. apply process_ai_data_cases in Hc.
  destruct Hc as [[_ [Hc _]]|[text [Hfs [[_ [Hc _]]|[Hlen Hc]]]]];
    try discriminate.
  cbv zeta in Hc.
  destruct Hc as [[_ [Hc _]]|[[_ [e [_ [Hc _]]]]|[Hp [Hw [Hdf Hws]]]]];
    try discriminate.
  inversion Hdf; subst df. simpl. repeat split; auto.
Qed.

Lemma gui_success_means_written_witness :
  exists n df ws,
    py_int "2" = Some n /\ (0 < n)%Z /\
    process_ai_data (one_file "in.txt" (text_of ["a%b"; "1%2"]))
      "in.txt" "out.xlsx" n false = Returned (Some df) ws /\
    df_rows df <> [] /\
    to_excel (one_file "in.txt" (text_of ["a%b"; "1%2"])) df "out.xlsx"
      = None /\
    BoxInformation "Processing Report"
      "Data successfully saved to 'out.xlsx'." =
    BoxInformation (tr no_translations "en" "Processing Report")
      (join_lines ws) /\
    BoxInformation "Success" "Data processing complete!" =
    BoxInformation (tr no_translations "en" "Success")
      (tr no_translations "en" "Data processing complete!").
Proof.
  apply (gui_success_means_written no_translations "en" py_int
           (one_file "in.txt" (text_of ["a%b"; "1%2"]))
           "in.txt" "out.xlsx" "2" false).
  reflexivity.
Defined.


